(** * meme-rush-sniper: the dispatch pipeline of [src/index.ts]

    A shallow embedding of the multi-RPC broadcaster ([submitRawTx]), the
    swap dispatch ([simulateAndBuyViaRouter]), the shared nonce counter with
    its periodic refresh, and the [TokenCreate] event handler of [main].

    Conventions.
    - A JavaScript [number] that holds a nonce, a deadline or a time in
      milliseconds is an integer far below 2^53 and is modelled as [Z]; a
      [bigint] is [Z] as well.
    - A thrown value is an [Error] object; only its [message] is ever read
      by the program, so an exception is modelled by that message.
    - What the outside world answers (the RPC endpoints, the wallet's
      provider, the clock) is an input of the model; the functions of the
      ethers library the program calls are a parameter ([Ethers]).
    - Console output is not modelled, except where building a log line can
      throw and so changes the control flow. *)

From Stdlib Require Import ZArith List String Ascii Bool Lia Permutation.
Import ListNotations.

Local Open Scope string_scope.
Local Open Scope list_scope.
Local Open Scope Z_scope.

(** ** JavaScript values and strings *)

(** The outcome of an expression that may throw. *)
Inductive result (A : Type) : Type :=
  | Ok (a : A)
  | Throw (message : string).

Arguments Ok {A} a.
Arguments Throw {A} message.

Definition bind {A B : Type} (r : result A) (k : A -> result B) : result B :=
  match r with
  | Ok a => k a
  | Throw m => Throw m
  end.

Notation "x <- e ;; k" := (bind e (fun x => k))
  (at level 61, e at next level, right associativity).

(** [try { body } catch (error) { handler(error.message) }]. *)
Definition try_catch {A : Type} (body : result A) (handler : string -> result A)
  : result A :=
  match body with
  | Ok a => Ok a
  | Throw m => handler m
  end.

(** A string is truthy when it is not empty. *)
Definition truthy (s : string) : bool :=
  match s with
  | EmptyString => false
  | String _ _ => true
  end.

(** [s.startsWith(prefix)]. *)
Definition startsWith (s prefix : string) : bool := String.prefix prefix s.

(** [s.slice(n)] for [n >= 0]: [s] without its first [n] characters. *)
Fixpoint slice (n : nat) (s : string) : string :=
  match n, s with
  | O, _ => s
  | S n', String _ s' => slice n' s'
  | S _, EmptyString => EmptyString
  end.

(** [s.includes(needle)]. *)
Fixpoint includes (s needle : string) : bool :=
  String.prefix needle s
  || match s with
     | EmptyString => false
     | String _ s' => includes s' needle
     end.

Definition lowerChar (c : ascii) : ascii :=
  let n := nat_of_ascii c in
  if (65 <=? n)%nat && (n <=? 90)%nat then ascii_of_nat (n + 32) else c.

(** [s.toLowerCase()] on the ASCII text of an address. *)
Fixpoint toLowerCase (s : string) : string :=
  match s with
  | EmptyString => EmptyString
  | String c s' => String (lowerChar c) (toLowerCase s')
  end.

(** [xs.map((x, index) => f(x, index))]. *)
Fixpoint mapi_from {A B : Type} (f : A -> nat -> B) (index : nat) (xs : list A)
  : list B :=
  match xs with
  | [] => []
  | x :: xs' => f x index :: mapi_from f (S index) xs'
  end.

Definition mapi {A B : Type} (f : A -> nat -> B) (xs : list A) : list B :=
  mapi_from f 0 xs.

(** ** Constants of the program *)

Module ADDRESSES.
Definition FOUR_MEME_FACTORY : string := "0x5c952063c7fc8610ffdb798152d69f0b9550762b".
Definition ROUTER : string := "0xb300000b72DEAEb607a12d5f54773D1C19c7028d".
Definition WBNB : string := "0xbb4CdB9CBd36B01bD1cBaEBF2De08d9173bc095c".
End ADDRESSES.

(** The pool of endpoints; its first entry comes from the environment. *)
Definition BSC_RPC_ENDPOINTS (RPR_PROVIDER_URL : string) : list string :=
  [ RPR_PROVIDER_URL;
    "https://bsc-dataseed1.binance.org";
    "https://bsc-dataseed2.binance.org";
    "https://bsc-dataseed3.binance.org";
    "https://bsc-dataseed4.binance.org";
    "https://bsc-dataseed1.defibit.io";
    "https://bsc-dataseed2.defibit.io";
    "https://bsc-dataseed1.ninicoin.io";
    "https://bsc-dataseed2.ninicoin.io" ].

Definition SWAP_SELECTOR : string := "0x810c705b".

(** ** The broadcaster: [submitRawTx] *)

(** What [provider.broadcastTransaction(tx)] settles with. *)
Inductive Reply : Type :=
  | Response (hash : string)
      (* resolves to a response object; its hash may be empty *)
  | Nothing
      (* resolves to null or undefined *)
  | Rejection (message : option string).
      (* rejects; [None]: the thrown value has no message string *)

(** When an endpoint settles, in milliseconds after the broadcast started. *)
Inductive Behaviour : Type :=
  | Answers (after : Z) (reply : Reply)
  | Silent.

(** An RPC provider, seen from [submitRawTx]: how it reacts to a payload. *)
Definition Provider : Type := string -> Behaviour.

(** The object a submission returns: [{ success, hash?, error?, provider }]. *)
Record Submission : Type := mkSubmission {
  sub_success : bool;
  sub_hash : option string;
  sub_error : option string;
  sub_provider : nat
}.

(** An entry of [Promise.allSettled]'s result. *)
Inductive Settled : Type :=
  | Fulfilled (value : Submission)
  | Rejected (reason : string).

(** A settled submission together with the time at which it settled. *)
Record Settlement : Type := mkSettlement {
  settledAt : Z;
  outcome : Settled
}.

(** [Promise.race([provider.broadcastTransaction(tx), timeout])]: the reply
    wins when it comes before the timer fires; otherwise the race rejects
    with [Error('Timeout')] when the timer fires. *)
Definition race (timeoutMs : Z) (b : Behaviour) : Z * Reply :=
  match b with
  | Answers after reply =>
      if after <? timeoutMs then (after, reply)
      else (timeoutMs, Rejection (Some "Timeout"))
  | Silent => (timeoutMs, Rejection (Some "Timeout"))
  end.

(** The [catch] of a submission: [err.message.substring(0, 50)] is logged, which
    throws a TypeError when the message is missing, rejecting the submission. *)
Definition caught (index : nat) (message : option string) : Settled :=
  match message with
  | Some m => Fulfilled (mkSubmission false None (Some m) index)
  | None => Rejected "Cannot read properties of undefined (reading 'substring')"
  end.

(** The body of one submission (lines 72-91). *)
Definition submission (txWithPrefix : string) (timeoutMs : Z)
    (provider : Provider) (index : nat) : Settlement :=
  let '(at_ms, reply) := race timeoutMs (provider txWithPrefix) in
  mkSettlement at_ms
    match reply with
    | Response hash =>
        if truthy hash then Fulfilled (mkSubmission true (Some hash) None index)
        else caught index (Some "No transaction hash returned")
    | Nothing => caught index (Some "No transaction hash returned")
    | Rejection message => caught index message
    end.

(** [result.status === 'fulfilled' && result.value.success && result.value.hash]. *)
Definition accepted (r : Settled) : option string :=
  match r with
  | Fulfilled v =>
      if sub_success v then
        match sub_hash v with
        | Some h => if truthy h then Some h else None
        | None => None
        end
      else None
  | Rejected _ => None
  end.

(** The [for (const result of results)] loop of lines 97-110. *)
Fixpoint firstSuccessful (results : list Settled) : option string :=
  match results with
  | [] => None
  | r :: rest =>
      match accepted r with
      | Some txHash => Some txHash
      | None => firstSuccessful rest
      end
  end.

(** [Promise.allSettled] settles when its last input has settled. *)
Fixpoint allSettledAt (ss : list Settlement) : Z :=
  match ss with
  | [] => 0
  | s :: rest => Z.max (settledAt s) (allSettledAt rest)
  end.

Definition ALL_FAILED : string :=
  "All RPC endpoints failed to broadcast transaction".

Definition submissions (rpcProviders : list Provider) (rawTx : string)
    (timeoutMs : Z) : list Settlement :=
  let txWithPrefix := if startsWith rawTx "0x" then rawTx else ("0x" ++ rawTx)%string in
  mapi (submission txWithPrefix timeoutMs) rpcProviders.

(** [submitRawTx(rawTx, timeoutMs)]: the time at which the returned promise
    settles (milliseconds after the call) and what it settles with. *)
Definition submitRawTx (rpcProviders : list Provider) (rawTx : string)
    (timeoutMs : Z) : Z * result string :=
  let subs := submissions rpcProviders rawTx timeoutMs in
  let results := map outcome subs in
  (allSettledAt subs,
   match firstSuccessful results with
   | Some txHash => Ok txHash
   | None => Throw ALL_FAILED
   end).

(** The default of the [timeoutMs] parameter. *)
Definition DEFAULT_TIMEOUT_MS : Z := 5000.

(** ** The ethers library, as far as the dispatch uses it *)

Class Ethers : Type := {
  (* [ethers.parseEther(s)] *)
  parseEther : string -> result Z;
  (* [iface.encodeFunctionData('swapExactETHForTokens',
       [amountOutMin, path, to, deadline])] *)
  encodeFunctionData : Z -> list string -> string -> Z -> result string;
  (* [iface.decodeFunctionResult('swapExactETHForTokens', data)[0]] *)
  decodeFunctionResult : string -> result (list Z)
}.

(** [ethers.parseUnits('3', 'gwei')]. *)
Definition THREE_GWEI : Z := 3 * 10 ^ 9.

(** ** Transactions, wallet and dispatch result *)

(** [simTx], the argument of [provider.call]. *)
Record CallRequest : Type := mkCallRequest {
  call_to : string;
  call_data : string;
  call_value : Z
}.

(** [txRequest], the argument of [wallet.signTransaction]. *)
Record TxRequest : Type := mkTxRequest {
  tx_to : string;
  tx_data : string;
  tx_value : Z;
  tx_gasLimit : Z;
  tx_gasPrice : Z;
  tx_nonce : Z;
  tx_chainId : Z
}.

(** [feeData.gasPrice] is [null] or a bigint. *)
Record FeeData : Type := mkFeeData {
  fee_gasPrice : option Z
}.

(** [wallet.provider]: what it answers during one dispatch. *)
Record ChainProvider : Type := mkChainProvider {
  call : CallRequest -> result string;
  getFeeData : result FeeData
}.

Record Wallet : Type := mkWallet {
  getAddress : result string;
  signTransaction : TxRequest -> result string;
  provider : ChainProvider
}.

(** What one run of the dispatch observes of the outside: the clock when
    the deadline is computed ([now] is a value of [Date.now()], in
    milliseconds), the wallet with its provider, and how each endpoint of
    the pool reacts to the broadcast. *)
Record World : Type := mkWorld {
  now : Z;
  wallet : Wallet;
  rpcProviders : list Provider
}.

(** [{ success, txHash?, error? }]. *)
Record DispatchResult : Type := mkDispatchResult {
  success : bool;
  txHash : option string;
  error : option string
}.

(** ** The dispatch: [simulateAndBuyViaRouter] *)

(** [a || b] on a nullable bigint: [null] and [0n] are falsy. *)
Definition orElse (a : option Z) (b : Z) : Z :=
  match a with
  | Some p => if p =? 0 then b else p
  | None => b
  end.

(** [xs[xs.length - 1]]: [undefined] on the empty array. *)
Definition lastItem (xs : list Z) : option Z := last (map Some xs) None.

Section Dispatch.

Context {ethers : Ethers}.

Definition encodeSwapParams (amountOutMin : Z) (path : list string)
    (to : string) (deadline : Z) : result string :=
  fullData <- encodeFunctionData amountOutMin path to deadline ;;
  Ok (slice 10 fullData).

(** Step 2 (lines 160-174): the inner [try]/[catch]; it yields
    [(simulationSuccess, simOut)] and never throws. An empty [amounts]
    array makes [formatUnits] throw after [simulationSuccess] was set. *)
Definition simulate (w : Wallet) (simTx : CallRequest) : bool * option Z :=
  match call (provider w) simTx with
  | Throw _ => (false, Some 0)
  | Ok simResult =>
      match decodeFunctionResult simResult with
      | Throw _ => (false, Some 0)
      | Ok simAmounts => (true, lastItem simAmounts)
      end
  end.

(** What the dispatch holds when it suspends at [await submitRawTx]. *)
Record Built : Type := mkBuilt {
  simulationSuccess : bool;
  simOut : option Z;
  txRequest : TxRequest;
  rawTx : string
}.

(** Lines 133-199: from the start of the [try] block to the signed
    payload. [currentNonce] is read once, when [txRequest] is built. *)
Definition buildAndSign (w : World) (tokenAddress amountInBNB : string)
    (currentNonce : Z) : result Built :=
  funds <- parseEther amountInBNB ;;
  let path := [ADDRESSES.WBNB; tokenAddress] in
  let deadline := now w / 1000 + 20 * 60 in
  to <- getAddress (wallet w) ;;
  let amountOutMin := 0 in
  paramsEncoded <- encodeSwapParams amountOutMin path to deadline ;;
  let simData := (SWAP_SELECTOR ++ paramsEncoded)%string in
  let simTx := mkCallRequest ADDRESSES.ROUTER simData funds in
  let '(simulationSuccess, simOut) := simulate (wallet w) simTx in
  feeData <- getFeeData (provider (wallet w)) ;;
  let gasPrice := orElse (fee_gasPrice feeData) THREE_GWEI in
  let data := (SWAP_SELECTOR ++ paramsEncoded)%string in
  let txRequest :=
    mkTxRequest ADDRESSES.ROUTER data funds 500000 gasPrice currentNonce 56 in
  signedTx <- signTransaction (wallet w) txRequest ;;
  let rawTx := slice 2 signedTx in
  Ok (mkBuilt simulationSuccess simOut txRequest rawTx).

(** Lines 204-209: the rest of the [try] block once the broadcast has
    settled; [currentNonce.value++] runs only after a success. *)
Definition afterBroadcast (broadcast : result string) (currentNonce : Z)
  : result DispatchResult * Z :=
  match broadcast with
  | Ok hash => (Ok (mkDispatchResult true (Some hash) None), currentNonce + 1)
  | Throw m => (Throw m, currentNonce)
  end.

(** The outer [catch] (lines 211-214). *)
Definition onError (message : string) : result DispatchResult :=
  Ok (mkDispatchResult false None (Some message)).

(** The per-endpoint timeout the dispatch passes to [submitRawTx]. *)
Definition BROADCAST_TIMEOUT_MS : Z := 30000.

Definition broadcast (w : World) (b : Built) : result string :=
  snd (submitRawTx (rpcProviders w) (rawTx b) BROADCAST_TIMEOUT_MS).

(** The [try] block (lines 132-210), run without interruption: what it
    returns or throws, and the shared counter afterwards. *)
Definition tryBlock (w : World) (tokenAddress amountInBNB : string)
    (currentNonce : Z) : result DispatchResult * Z :=
  match buildAndSign w tokenAddress amountInBNB currentNonce with
  | Ok b => afterBroadcast (broadcast w b) currentNonce
  | Throw m => (Throw m, currentNonce)
  end.

(** One dispatch run without interruption: what the returned promise
    settles with, and the shared counter afterwards. *)
Definition simulateAndBuyViaRouter (w : World) (tokenAddress amountInBNB : string)
    (currentNonce : Z) : result DispatchResult * Z :=
  let '(body, nonce') := tryBlock w tokenAddress amountInBNB currentNonce in
  (try_catch body onError, nonce').

(** How many times a dispatch run calls [submitRawTx]. *)
Definition broadcasterCalls (w : World) (tokenAddress amountInBNB : string)
    (currentNonce : Z) : nat :=
  match buildAndSign w tokenAddress amountInBNB currentNonce with
  | Throw _ => 0%nat
  | Ok _ => 1%nat
  end.

(** A dispatch to run: its token, and the world it will observe. *)
Record Trigger : Type := mkTrigger {
  trig_world : World;
  trig_token : string;
  trig_amount : string
}.

(** The nonce a dispatch run put into the transaction it signed. *)
Definition nonceUsed (t : Trigger) (currentNonce : Z) : option Z :=
  match buildAndSign (trig_world t) (trig_token t) (trig_amount t) currentNonce with
  | Ok b => Some (tx_nonce (txRequest b))
  | Throw _ => None
  end.

(** *** Dispatches that overlap *)

(** JavaScript runs one dispatch at a time until it awaits. Of the
    awaits of a dispatch, only [await submitRawTx] separates an access
    to the shared counter (the read of line 194) from another one (the
    increment of line 207), so a dispatch is resumed twice. *)
Inductive Stage : Type :=
  | Triggered
  | Broadcasting (b : Built)
  | Finished (signed : option Built) (r : result DispatchResult).

Record Instance : Type := mkInstance {
  inst_trigger : Trigger;
  inst_stage : Stage
}.

Definition resume (i : Instance) (currentNonce : Z) : Instance * Z :=
  let t := inst_trigger i in
  match inst_stage i with
  | Triggered =>
      match buildAndSign (trig_world t) (trig_token t) (trig_amount t)
              currentNonce with
      | Ok b => (mkInstance t (Broadcasting b), currentNonce)
      | Throw m =>
          (mkInstance t (Finished None (try_catch (Throw m) onError)),
           currentNonce)
      end
  | Broadcasting b =>
      let '(r, nonce') :=
        afterBroadcast (broadcast (trig_world t) b) currentNonce in
      (mkInstance t (Finished (Some b) (try_catch r onError)), nonce')
  | Finished _ _ => (i, currentNonce)
  end.

(** The periodic refresh (lines 281-287), given what
    [getTransactionCount] returned. *)
Definition refreshNonce (latestNonce currentNonce : Z) : Z :=
  if latestNonce >? currentNonce then latestNonce else currentNonce.

(** The process: the shared [currentNonce.value] and the dispatch
    instances spawned so far. *)
Record Process : Type := mkProcess {
  currentNonce_value : Z;
  instances : list Instance
}.

Inductive Turn : Type :=
  | Resume (i : nat)
  | Refresh (latestNonce : Z).

Fixpoint resumeNth (i : nat) (insts : list Instance) (currentNonce : Z)
  : list Instance * Z :=
  match insts, i with
  | [], _ => ([], currentNonce)
  | x :: rest, O =>
      let '(x', nonce') := resume x currentNonce in (x' :: rest, nonce')
  | x :: rest, S i' =>
      let '(rest', nonce') := resumeNth i' rest currentNonce in
      (x :: rest', nonce')
  end.

Definition turn (p : Process) (t : Turn) : Process :=
  match t with
  | Resume i =>
      let '(insts, nonce') :=
        resumeNth i (instances p) (currentNonce_value p) in
      mkProcess nonce' insts
  | Refresh latestNonce =>
      mkProcess (refreshNonce latestNonce (currentNonce_value p)) (instances p)
  end.

Definition run (schedule : list Turn) (p : Process) : Process :=
  fold_left turn schedule p.

(** The nonce an instance signed with, once it has signed. *)
Definition reserved (i : Instance) : option Z :=
  match inst_stage i with
  | Triggered => None
  | Broadcasting b => Some (tx_nonce (txRequest b))
  | Finished (Some b) _ => Some (tx_nonce (txRequest b))
  | Finished None _ => None
  end.

Definition succeeded (i : Instance) : bool :=
  match inst_stage i with
  | Finished _ (Ok r) => success r
  | _ => false
  end.

Fixpoint somes {A : Type} (xs : list (option A)) : list A :=
  match xs with
  | [] => []
  | Some x :: rest => x :: somes rest
  | None :: rest => somes rest
  end.

Definition reservedNonces (p : Process) : list Z :=
  somes (map reserved (instances p)).

Definition spawn (ts : list Trigger) (initial : Z) : Process :=
  mkProcess initial (map (fun t => mkInstance t Triggered) ts).

End Dispatch.


(** ** The event handler of [main] *)

(** The arguments of the [TokenCreate] listener. *)
Record TokenCreate : Type := mkTokenCreate {
  creator : string;
  token : string;
  requestId : Z;
  name : string;
  symbol : string;
  totalSupply : Z;
  launchTime : Z;
  launchFee : Z
}.

(** The largest time value of a [Date], in milliseconds. *)
Definition MAX_TIME_VALUE : Z := 8640000000000000.

(** [new Date(ms).toISOString()] throws a RangeError when [ms] is not a
    time value a [Date] can hold; only whether it throws matters here. On
    an integer number of seconds [n >= 0], [Number(n) * 1000] exceeds
    [MAX_TIME_VALUE] exactly when [n * 1000] does: up to 8640000000001 the
    conversion and the product are exact (both are below 2^53), and both
    are monotonic beyond. *)
Definition toISOString (ms : Z) : result unit :=
  if Z.abs ms <=? MAX_TIME_VALUE then Ok tt else Throw "Invalid time value".

Definition TARGET_PREFIX : string := "0x4444".

(** The listener (lines 240-275), given [BUY_AMOUNT_BNB]: the calls of
    [simulateAndBuyViaRouter(token, BUY_AMOUNT_BNB, ...)] it makes, or the
    error it throws. The log line of line 256 formats [launchTime] as a
    date before the dispatch is started. *)
Definition onTokenCreate (BUY_AMOUNT_BNB : string) (ev : TokenCreate)
  : result (list (string * string)) :=
  if negb (startsWith (toLowerCase (token ev)) TARGET_PREFIX) then Ok []
  else
    _ <- toISOString (launchTime ev * 1000) ;;
    Ok [(token ev, BUY_AMOUNT_BNB)].

(** How many times [submitRawTx] is called on behalf of one event, when
    the dispatches it starts observe [w] and the counter stands at
    [currentNonce]. *)
Definition broadcastsFor {ethers : Ethers} (BUY_AMOUNT_BNB : string) (w : World)
    (currentNonce : Z) (ev : TokenCreate) : nat :=
  match onTokenCreate BUY_AMOUNT_BNB ev with
  | Ok calls =>
      list_sum
        (map (fun c => broadcasterCalls w (fst c) (snd c) currentNonce) calls)
  | Throw _ => 0%nat
  end.

(** ** Notions the properties are stated with *)

(** Following the specification's words ("the first-arriving success by
    wall-clock order"): the accepted submission that settled earliest, with
    the time at which it settled. It is compared with what [submitRawTx]
    returns; the program itself does not compute it. *)
Fixpoint spec_firstArrivingSuccess (ss : list Settlement) : option (Z * string) :=
  match ss with
  | [] => None
  | s :: rest =>
      match accepted (outcome s), spec_firstArrivingSuccess rest with
      | Some h, Some (t', h') =>
          if settledAt s <=? t' then Some (settledAt s, h) else Some (t', h')
      | Some h, None => Some (settledAt s, h)
      | None, other => other
      end
  end.

(** The cause a failed submission recorded. *)
Definition cause (s : Settlement) : option string :=
  match outcome s with
  | Fulfilled v => if sub_success v then None else sub_error v
  | Rejected reason => Some reason
  end.

(** Following the specification's words ("an aggregate error whose message
    enumerates the per-endpoint causes"): every recorded cause can be read
    in the message. *)
Definition spec_enumeratesCauses (message : string) (ss : list Settlement) : Prop :=
  Forall (fun s => forall c, cause s = Some c -> includes message c = true) ss.

(** A world that differs from [w] only in what [provider.call] answers. *)
Definition withCall (w : World) (answer : CallRequest -> result string) : World :=
  mkWorld (now w)
    (mkWallet (getAddress (wallet w)) (signTransaction (wallet w))
       (mkChainProvider answer (getFeeData (provider (wallet w)))))
    (rpcProviders w).

(** What a dispatch hands to the signer and to the broadcaster. *)
Definition signedWith {ethers : Ethers} (w : World) (tokenAddress amountInBNB : string)
    (currentNonce : Z) : result (TxRequest * string) :=
  b <- buildAndSign w tokenAddress amountInBNB currentNonce ;;
  Ok (txRequest b, rawTx b).



(** ** Further parts of the program *)

(** The reply of an endpoint that wins the race against the timer,
    whenever it came; [None] when the timer wins. *)
Definition replyInTime (timeoutMs : Z) (b : Behaviour) : option Reply :=
  match b with
  | Answers after reply => if after <? timeoutMs then Some reply else None
  | Silent => None
  end.

(** Line 67: the payload every endpoint of the pool is given. *)
Definition txWithPrefix (rawTx : string) : string :=
  if startsWith rawTx "0x" then rawTx else ("0x" ++ rawTx)%string.

(** Line 104, the test of the telemetry count:
    [r.status === 'fulfilled' && r.value.success]. *)
Definition countedAsSuccess (r : Settled) : bool :=
  match r with
  | Fulfilled v => sub_success v
  | Rejected _ => false
  end.

(** Line 104: [results.filter(...).length]. *)
Definition successCount (results : list Settled) : nat :=
  List.length (filter countedAsSuccess results).

(** Lines 31-38: what the program reads from [process.env] at start-up. *)
Module Config.

Definition ProcessEnv : Type := string -> option string.

(** [a || b] on an environment variable: [undefined] and the empty
    string are falsy. *)
Definition orDefault (a : option string) (b : string) : string :=
  match a with
  | Some v => if truthy v then v else b
  | None => b
  end.

(** Lines 32-35: the start-up check of the private key. *)
Definition PRIVATE_KEY (env : ProcessEnv) : result string :=
  match env "PRIVATE_KEY" with
  | Some key => if truthy key then Ok key else Throw "PRIVATE_KEY not set in .env file!"
  | None => Throw "PRIVATE_KEY not set in .env file!"
  end.

(** Line 38. *)
Definition BUY_AMOUNT_BNB (env : ProcessEnv) : string :=
  orDefault (env "BUY_AMOUNT_BNB") "0.0001".

(** Start-up followed by one event. The module throws before [main] runs
    when the key is missing. [setup] is what lines 222-236 of [main] end
    with: the initial value of the counter, or what the construction of
    the wallet or [getTransactionCount] threw, in which case no listener
    is registered. Otherwise the listener handles the record with the
    configured amount. *)
Definition startThenReceive (env : ProcessEnv) (setup : result Z)
    (ev : TokenCreate) : result (list (string * string)) :=
  _ <- PRIVATE_KEY env ;;
  _ <- setup ;;
  onTokenCreate (BUY_AMOUNT_BNB env) ev.

End Config.

(** The counter after a series of refreshes, the first one first. *)
Definition refreshAll (latest : list Z) (currentNonce : Z) : Z :=
  fold_left (fun n l => refreshNonce l n) latest currentNonce.


Definition isResume (t : Turn) : bool :=
  match t with
  | Resume _ => true
  | Refresh _ => false
  end.

Definition b2z (b : bool) : Z := if b then 1 else 0.

(** The number of instances that have settled with a success. *)
Definition successes (p : Process) : nat :=
  List.length (filter succeeded (instances p)).

(** ** Concrete inputs

    A stand-in for the ethers library (the ABI encoding of the four
    arguments of [swapExactETHForTokens] written out, the two amounts the
    examples use, a signer that only wraps its input) and a few worlds, on
    which the model is run. *)
Module Sample.

Definition hexDigit (d : Z) : ascii :=
  match d with
  | 0 => "0" | 1 => "1" | 2 => "2" | 3 => "3" | 4 => "4" | 5 => "5"
  | 6 => "6" | 7 => "7" | 8 => "8" | 9 => "9" | 10 => "a" | 11 => "b"
  | 12 => "c" | 13 => "d" | 14 => "e" | _ => "f"
  end%char.

Fixpoint hexFrom (digits : nat) (n : Z) (acc : string) : string :=
  match digits with
  | O => acc
  | S k => hexFrom k (n / 16) (String (hexDigit (n mod 16)) acc)
  end.

(** A 32-byte word in hexadecimal. *)
Definition word (n : Z) : string := hexFrom 64 n "".

Definition addressWord (a : string) : string :=
  ("000000000000000000000000" ++ toLowerCase (slice 2 a))%string.

Definition STANDARD_SELECTOR : string := "7ff36ab5".

Definition swapParams (amountOutMin : Z) (path : list string) (to : string)
    (deadline : Z) : string :=
  (word amountOutMin ++ word 128 ++ addressWord to ++ word deadline
     ++ word (Z.of_nat (List.length path)) ++ String.concat "" (map addressWord path))%string.

Definition ethers : Ethers := {|
  parseEther := fun s =>
    if String.eqb s "0.0001" then Ok (10 ^ 14)
    else if String.eqb s "0.01" then Ok (10 ^ 16)
    else Throw "invalid FixedNumber string value";
  encodeFunctionData := fun amountOutMin path to deadline =>
    Ok ("0x" ++ STANDARD_SELECTOR ++ swapParams amountOutMin path to deadline)%string;
  decodeFunctionResult := fun data =>
    if String.eqb data "0x" then Throw "could not decode result data"
    else Ok [10 ^ 14; 42]
|}.

Definition OWN_ADDRESS : string := "0x1111111111111111111111111111111111111111".
(** Addresses are written as ethers delivers and accepts them, with their
    EIP-55 checksum where they contain letters. *)
Definition TOKEN : string := "0x4444abCD00000000000000000000000000000001".
Definition TX_HASH : string := "0x9e1f".

Definition sign (tx : TxRequest) : result string :=
  Ok ("0x" ++ word (tx_nonce tx) ++ slice 2 (tx_data tx))%string.

Definition reverting : ChainProvider :=
  mkChainProvider (fun _ => Throw "execution reverted")
    (Ok (mkFeeData (Some (10 ^ 9)))).

Definition accepts (after : Z) (hash : string) : Provider :=
  fun _ => Answers after (Response hash).

Definition rejects (after : Z) (message : string) : Provider :=
  fun _ => Answers after (Rejection (Some message)).

Definition silent : Provider := fun _ => Silent.

(** Scenario 1 of the specification: three endpoints, the second one
    accepts after 50 ms, the other two never answer. *)
Definition scenario1 : list Provider := [silent; accepts 50 TX_HASH; silent].

(** Two endpoints that both accept, the second one first. *)
Definition lateThenEarly : list Provider :=
  [accepts 100 "0xaa"; accepts 50 "0xbb"].

(** Scenario 2 of the specification: all three endpoints reject. *)
Definition scenario2 : list Provider :=
  [rejects 30 "nonce too low"; rejects 10 "nonce too low";
   rejects 20 "nonce too low"].

Definition mixed : list Provider :=
  [rejects 30 "nonce too low"; silent; accepts 70 TX_HASH;
   accepts 20 "0x77"; fun _ => Answers 5 Nothing].

Definition goodWorld : World :=
  mkWorld 1700000000123 (mkWallet (Ok OWN_ADDRESS) sign reverting) scenario1.

Definition deafWorld : World :=
  mkWorld 1700000000123 (mkWallet (Ok OWN_ADDRESS) sign reverting) scenario2.

Definition contestedWorld : World :=
  mkWorld 1700000000456 (mkWallet (Ok OWN_ADDRESS) sign reverting)
    [rejects 40 "replacement transaction underpriced";
     rejects 25 "replacement transaction underpriced";
     rejects 60 "replacement transaction underpriced"].

Definition feelessWorld : World :=
  mkWorld 1700000000123
    (mkWallet (Ok OWN_ADDRESS) sign
       (mkChainProvider (fun _ => Throw "execution reverted")
          (Throw "could not detect network")))
    scenario1.

Definition zeroFeeWorld : World :=
  mkWorld 1700000000999
    (mkWallet (Ok OWN_ADDRESS) sign
       (mkChainProvider (fun _ => Ok "0x2a") (Ok (mkFeeData (Some 0)))))
    scenario1.

Definition unsignedWorld : World :=
  mkWorld 1700000000123
    (mkWallet (Ok OWN_ADDRESS) (fun _ => Throw "invalid private key") reverting)
    scenario1.

Definition OTHER_TOKEN : string := "0x4444000000000000000000000000000000000002".

Definition trigger (w : World) : Trigger := mkTrigger w TOKEN "0.0001".

Definition otherTrigger (w : World) : Trigger :=
  mkTrigger w OTHER_TOKEN "0.0001".

(** A matching token whose launch time lies beyond the range of [Date]. *)
Definition farLaunch : TokenCreate :=
  mkTokenCreate OWN_ADDRESS TOKEN 1 "Rush" "RUSH" (10 ^ 27) 8640000000001 0.

Definition launch : TokenCreate :=
  mkTokenCreate OWN_ADDRESS TOKEN 1 "Rush" "RUSH" (10 ^ 27) 1700000000 0.

Definition otherLaunch : TokenCreate :=
  mkTokenCreate OWN_ADDRESS "0x1234AbcD00000000000000000000000000000001" 1
    "Rush" "RUSH" (10 ^ 27) 1700000000 0.

End Sample.

(** * Properties *)

(** ** The broadcaster *)

Lemma mapi_from_nth_error {A B : Type} (f : A -> nat -> B) (xs : list A) :
  forall (k i : nat) (y : B),
    nth_error (mapi_from f k xs) i = Some y ->
    exists x, nth_error xs i = Some x /\ y = f x (k + i)%nat.
Proof.
  induction xs as [|x xs IH]; intros k i y Hy.
  - destruct i; discriminate.
  - destruct i as [|i]; simpl in Hy.
    + injection Hy as <-. exists x. split; [reflexivity|].
      f_equal. lia.
    + apply IH in Hy. destruct Hy as [x' [Hx' ->]].
      exists x'. split; [exact Hx'|]. f_equal. lia.
Qed.

Lemma mapi_from_length {A B : Type} (f : A -> nat -> B) (xs : list A) :
  forall k, List.length (mapi_from f k xs) = List.length xs.
Proof.
  induction xs as [|x xs IH]; intro k; simpl; [reflexivity|].
  now rewrite IH.
Qed.

(** One submission per endpoint of the pool. *)
Lemma submissions_length (pool : list Provider) (rawTx : string) (timeoutMs : Z) :
  List.length (submissions pool rawTx timeoutMs) = List.length pool.
Proof. apply mapi_from_length. Qed.

(** A fulfilled submission carries the index of its endpoint. *)
Lemma submission_provider (tx : string) (timeoutMs : Z) (p : Provider)
    (index : nat) (v : Submission) :
  outcome (submission tx timeoutMs p index) = Fulfilled v -> sub_provider v = index.
Proof.
  unfold submission. destruct (race timeoutMs (p tx)) as [t reply]. simpl.
  destruct reply as [hash| |[m|]]; simpl; try discriminate.
  - destruct (truthy hash); simpl; intro H; injection H as <-; reflexivity.
  - intro H; injection H as <-; reflexivity.
  - intro H; injection H as <-; reflexivity.
Qed.

Lemma submissions_provider (pool : list Provider) (rawTx : string) (timeoutMs : Z)
    (i : nat) (s : Settlement) (v : Submission) :
  nth_error (submissions pool rawTx timeoutMs) i = Some s ->
  outcome s = Fulfilled v -> sub_provider v = i.
Proof.
  unfold submissions, mapi. intros Hs Hv.
  apply mapi_from_nth_error in Hs. destruct Hs as [p [_ ->]].
  apply submission_provider in Hv. exact Hv.
Qed.

(** The loop returns the hash of the first accepted entry, in list order. *)
Lemma firstSuccessful_lowest (results : list Settled) (h : string) :
  firstSuccessful results = Some h ->
  exists i r,
    nth_error results i = Some r /\ accepted r = Some h /\
    forall j r', (j < i)%nat -> nth_error results j = Some r' -> accepted r' = None.
Proof.
  induction results as [|r rest IH]; simpl; [discriminate|].
  destruct (accepted r) as [h0|] eqn:Hr.
  - intro H. injection H as <-. exists 0%nat, r.
    repeat split; auto. intros j r' Hj. lia.
  - intro H. destruct (IH H) as [i [r1 [Hi [Hacc Hlow]]]].
    exists (S i), r1. repeat split; auto.
    intros [|j] r' Hj Hnth; simpl in Hnth.
    + injection Hnth as <-. exact Hr.
    + apply (Hlow j); [lia | exact Hnth].
Qed.

Lemma firstSuccessful_some (results : list Settled) :
  Exists (fun r => accepted r <> None) results ->
  exists h, firstSuccessful results = Some h.
Proof.
  induction 1 as [r rest Hr | r rest _ IH]; simpl.
  - destruct (accepted r) as [h|]; [eauto | congruence].
  - destruct (accepted r) as [h|]; eauto.
Qed.

Lemma firstSuccessful_none (results : list Settled) :
  Forall (fun r => accepted r = None) results -> firstSuccessful results = None.
Proof.
  induction 1 as [|r rest Hr _ IH]; simpl; [reflexivity|].
  now rewrite Hr.
Qed.

(** X3. [submitRawTx] settles no earlier than any of its submissions: it
    waits for the slowest one. *)
Lemma submitRawTx_waits_for_all (pool : list Provider) (rawTx : string)
    (timeoutMs : Z) (s : Settlement) :
  In s (submissions pool rawTx timeoutMs) ->
  settledAt s <= fst (submitRawTx pool rawTx timeoutMs).
Proof.
  unfold submitRawTx. simpl.
  induction (submissions pool rawTx timeoutMs) as [|s0 rest IH]; simpl.
  - intros [].
  - intros [-> | Hin]; [lia|]. specialize (IH Hin). lia.
Qed.

Lemma submitRawTx_waits_for_all_witness :
  In (mkSettlement 5000
        (Fulfilled (mkSubmission false None (Some "Timeout") 2)))
    (submissions Sample.scenario1 "f86b" 5000)
  /\ 5000 <= fst (submitRawTx Sample.scenario1 "f86b" 5000).
Proof.
  assert (H : In (mkSettlement 5000
                    (Fulfilled (mkSubmission false None (Some "Timeout") 2)))
                (submissions Sample.scenario1 "f86b" 5000)).
  { right. right. left. reflexivity. }
  split; [exact H|].
  exact (submitRawTx_waits_for_all Sample.scenario1 "f86b" 5000 _ H).
Defined.

(** The pool of the program has nine endpoints. *)
Lemma BSC_RPC_ENDPOINTS_length (url : string) :
  List.length (BSC_RPC_ENDPOINTS url) = 9%nat.
Proof. reflexivity. Qed.

Example mixed_returns_third :
  submitRawTx Sample.mixed "f86b" 5000 = (5000, Ok Sample.TX_HASH).
Proof. reflexivity. Qed.

(** C1. On scenario 1 of the specification (three endpoints, the second
    accepts after 50 ms, the others stay silent, timeout 5000 ms) the first
    success arrives after 50 ms, yet [submitRawTx] settles only after
    5000 ms, when the silent endpoints have timed out. *)
Theorem C1_settles_after_last_endpoint :
  spec_firstArrivingSuccess
    (submissions Sample.scenario1 "f86b" DEFAULT_TIMEOUT_MS)
    = Some (50, Sample.TX_HASH)
  /\ submitRawTx Sample.scenario1 "f86b" DEFAULT_TIMEOUT_MS
     = (5000, Ok Sample.TX_HASH).
Proof. split; reflexivity. Qed.

(** Were two endpoints to answer with different hashes, the one returned
    would be chosen by position in the pool, not by time of arrival. *)
Example selection_is_by_position :
  spec_firstArrivingSuccess
    (submissions Sample.lateThenEarly "f86b" DEFAULT_TIMEOUT_MS)
    = Some (50, "0xbb")
  /\ submitRawTx Sample.lateThenEarly "f86b" DEFAULT_TIMEOUT_MS
     = (100, Ok "0xaa").
Proof. split; reflexivity. Qed.

(** C3, as stated, fails: when all three endpoints reject with "nonce too
    low", the error [submitRawTx] throws does not contain that cause. *)
Lemma C3_counterexample :
  Forall (fun s => accepted (outcome s) = None)
    (submissions Sample.scenario2 "f86b" 5000)
  /\ exists m,
       snd (submitRawTx Sample.scenario2 "f86b" 5000) = Throw m
       /\ ~ spec_enumeratesCauses m (submissions Sample.scenario2 "f86b" 5000).
Proof.
  split.
  - repeat constructor.
  - exists ALL_FAILED. split; [reflexivity|].
    intro H. inversion H as [|s rest Hs _]; subst.
    specialize (Hs "nonce too low" eq_refl). vm_compute in Hs. discriminate.
Qed.

(** C3, amended. When no submission was accepted, [submitRawTx] throws an
    error with the fixed message "All RPC endpoints failed to broadcast
    transaction", whatever the number of endpoints and their causes. *)
Theorem C3_all_failed_fixed_message :
  forall (pool : list Provider) (rawTx : string) (timeoutMs : Z),
    Forall (fun s => accepted (outcome s) = None)
      (submissions pool rawTx timeoutMs) ->
    snd (submitRawTx pool rawTx timeoutMs)
    = Throw "All RPC endpoints failed to broadcast transaction".
Proof.
  intros pool rawTx timeoutMs Hall. unfold submitRawTx. simpl.
  rewrite firstSuccessful_none; [reflexivity|].
  apply Forall_forall. intros r Hr. apply in_map_iff in Hr.
  destruct Hr as [s [<- Hin]].
  rewrite Forall_forall in Hall. apply Hall. exact Hin.
Qed.

Lemma C3_witness :
  Forall (fun s => accepted (outcome s) = None)
    (submissions Sample.scenario2 "f86b" 5000)
  /\ snd (submitRawTx Sample.scenario2 "f86b" 5000)
     = Throw "All RPC endpoints failed to broadcast transaction".
Proof.
  assert (H : Forall (fun s => accepted (outcome s) = None)
                (submissions Sample.scenario2 "f86b" 5000)).
  { repeat constructor. }
  split; [exact H|].
  exact (C3_all_failed_fixed_message Sample.scenario2 "f86b" 5000 H).
Defined.

(** The only error that leaves [submitRawTx] is the aggregate one. *)
Lemma submitRawTx_throws_only_aggregate (pool : list Provider) (rawTx : string)
    (timeoutMs : Z) (m : string) :
  snd (submitRawTx pool rawTx timeoutMs) = Throw m -> m = ALL_FAILED.
Proof.
  unfold submitRawTx. simpl.
  destruct (firstSuccessful _); [discriminate|].
  intro H. injection H as <-. reflexivity.
Qed.

(** ** The nonce refresh *)

(** C5. The refresh adopts an external value that is strictly greater
    than the counter and leaves the counter alone otherwise; it never
    decreases the counter, and refreshing again with the same external
    value changes nothing. *)
Theorem C5_refresh_monotonic_idempotent :
  forall latestNonce currentNonce : Z,
    (latestNonce > currentNonce -> refreshNonce latestNonce currentNonce = latestNonce)
    /\ (latestNonce <= currentNonce -> refreshNonce latestNonce currentNonce = currentNonce)
    /\ currentNonce <= refreshNonce latestNonce currentNonce
    /\ refreshNonce latestNonce (refreshNonce latestNonce currentNonce)
       = refreshNonce latestNonce currentNonce.
Proof.
  intros latestNonce currentNonce. unfold refreshNonce.
  destruct (latestNonce >? currentNonce) eqn:Hgt.
  - assert (latestNonce > currentNonce) by lia.
    rewrite Z.gtb_ltb, Z.ltb_irrefl. repeat split; lia.
  - assert (latestNonce <= currentNonce) by lia.
    rewrite Hgt. repeat split; lia.
Qed.

Lemma C5_witness :
  refreshNonce 9 7 = 9 /\ refreshNonce 5 7 = 7 /\ refreshNonce 7 7 = 7.
Proof.
  split; [|split].
  - apply (proj1 (C5_refresh_monotonic_idempotent 9 7)). lia.
  - apply (proj1 (proj2 (C5_refresh_monotonic_idempotent 5 7))). lia.
  - apply (proj1 (proj2 (C5_refresh_monotonic_idempotent 7 7))). lia.
Defined.

(** A refresh turn of the process never lowers the shared counter. *)
Lemma refresh_turn_monotonic {ethers : Ethers} (p : Process) (latestNonce : Z) :
  currentNonce_value p <= currentNonce_value (turn p (Refresh latestNonce)).
Proof. simpl. unfold refreshNonce. destruct (latestNonce >? _) eqn:H; lia. Qed.

(** ** The dispatch *)

Lemma slice_app (a b : string) : slice (String.length a) (a ++ b)%string = b.
Proof. induction a as [|c a IH]; simpl; [reflexivity | exact IH]. Qed.

(** What [buildAndSign] read from the outside when it succeeded. *)
Lemma buildAndSign_inv {ethers : Ethers} (w : World) (tokenAddress amountInBNB : string)
    (currentNonce : Z) (b : Built) :
  buildAndSign w tokenAddress amountInBNB currentNonce = Ok b ->
  exists funds own fullData fee signedTx,
    parseEther amountInBNB = Ok funds
    /\ getAddress (wallet w) = Ok own
    /\ encodeFunctionData 0 [ADDRESSES.WBNB; tokenAddress] own
         (now w / 1000 + 20 * 60) = Ok fullData
    /\ getFeeData (provider (wallet w)) = Ok fee
    /\ txRequest b
       = mkTxRequest ADDRESSES.ROUTER (SWAP_SELECTOR ++ slice 10 fullData)%string
           funds 500000 (orElse (fee_gasPrice fee) THREE_GWEI) currentNonce 56
    /\ signTransaction (wallet w) (txRequest b) = Ok signedTx
    /\ rawTx b = slice 2 signedTx
    /\ (simulationSuccess b, simOut b)
       = simulate (wallet w)
           (mkCallRequest ADDRESSES.ROUTER (SWAP_SELECTOR ++ slice 10 fullData)%string
              funds).
Proof.
  unfold buildAndSign, encodeSwapParams. intro H.
  destruct (parseEther amountInBNB) as [funds|] eqn:Hfunds;
    cbn [bind] in H; [|discriminate].
  destruct (getAddress (wallet w)) as [own|] eqn:Hown;
    cbn [bind] in H; [|discriminate].
  destruct (encodeFunctionData 0 [ADDRESSES.WBNB; tokenAddress] own
              (now w / 1000 + 20 * 60)) as [fullData|] eqn:Hfull;
    cbn [bind] in H; [|discriminate].
  destruct (simulate (wallet w) _) as [ok out] eqn:Hsim.
  destruct (getFeeData (provider (wallet w))) as [fee|] eqn:Hfee;
    cbn [bind] in H; [|discriminate].
  destruct (signTransaction (wallet w) _) as [signedTx|] eqn:Hsign;
    cbn [bind] in H; [|discriminate].
  injection H as <-. cbn [txRequest rawTx simulationSuccess simOut].
  exists funds, own, fullData, fee, signedTx.
  repeat (split; [first [reflexivity | assumption]|]).
  symmetry. exact Hsim.
Qed.

Lemma buildAndSign_nonce {ethers : Ethers} (w : World) (tokenAddress amountInBNB : string)
    (currentNonce : Z) (b : Built) :
  buildAndSign w tokenAddress amountInBNB currentNonce = Ok b ->
  tx_nonce (txRequest b) = currentNonce.
Proof.
  intro H. apply buildAndSign_inv in H.
  destruct H as (funds & own & fullData & fee & signedTx & _ & _ & _ & _ & -> & _).
  reflexivity.
Qed.

(** C7. The transaction handed to the signer is a function of the token,
    the amount, the nonce and what the wallet, the clock and the fee
    estimate answered: it goes to the router, its data is the selector
    0x810c705b followed by the encoded parameters (0, [WBNB, token], own
    address, now + 20 minutes), its value is the parsed amount, its gas
    limit 500000, its gas price the estimate or 3 gwei when the estimate
    is missing or zero, its nonce the counter's value, its chain 56. *)
Theorem C7_built_transaction :
  forall {ethers : Ethers} (w : World) (tokenAddress amountInBNB : string)
         (currentNonce : Z) (b : Built),
    buildAndSign w tokenAddress amountInBNB currentNonce = Ok b ->
    exists (funds : Z) (own fullData : string) (fee : FeeData),
      parseEther amountInBNB = Ok funds
      /\ getAddress (wallet w) = Ok own
      /\ encodeFunctionData 0
           ["0xbb4CdB9CBd36B01bD1cBaEBF2De08d9173bc095c"; tokenAddress] own
           (now w / 1000 + 1200) = Ok fullData
      /\ getFeeData (provider (wallet w)) = Ok fee
      /\ txRequest b =
         {| tx_to := "0xb300000b72DEAEb607a12d5f54773D1C19c7028d";
            tx_data := ("0x810c705b" ++ slice 10 fullData)%string;
            tx_value := funds;
            tx_gasLimit := 500000;
            tx_gasPrice :=
              match fee_gasPrice fee with
              | Some estimate => if estimate =? 0 then 3000000000 else estimate
              | None => 3000000000
              end;
            tx_nonce := currentNonce;
            tx_chainId := 56 |}
      /\ (forall standardSelector params : string,
            fullData = ("0x" ++ standardSelector ++ params)%string ->
            String.length standardSelector = 8%nat ->
            tx_data (txRequest b) = ("0x810c705b" ++ params)%string).
Proof.
  intros ethers w tokenAddress amountInBNB currentNonce b H.
  apply buildAndSign_inv in H.
  destruct H as (funds & own & fullData & fee & signedTx
                 & Hfunds & Hown & Hfull & Hfee & Htx & _).
  exists funds, own, fullData, fee.
  split; [exact Hfunds|]. split; [exact Hown|]. split; [exact Hfull|].
  split; [exact Hfee|]. split; [exact Htx|].
  intros sel params -> Hlen. rewrite Htx. cbn [tx_data].
  pose proof (slice_app sel params) as Hs. rewrite Hlen in Hs.
  change SWAP_SELECTOR with "0x810c705b". f_equal. exact Hs.
Qed.

(** C7 on a concrete dispatch: the clock shows 1700000000123 ms, the fee
    estimate is 1 gwei, the counter stands at 7. *)
Lemma C7_witness :
  exists b : Built,
    @buildAndSign Sample.ethers Sample.goodWorld Sample.TOKEN "0.0001" 7 = Ok b
    /\ txRequest b =
       {| tx_to := ADDRESSES.ROUTER;
          tx_data :=
            ("0x810c705b"
             ++ Sample.swapParams 0 [ADDRESSES.WBNB; Sample.TOKEN]
                  Sample.OWN_ADDRESS 1700001200)%string;
          tx_value := 100000000000000;
          tx_gasLimit := 500000;
          tx_gasPrice := 1000000000;
          tx_nonce := 7;
          tx_chainId := 56 |}.
Proof.
  eexists. split; [vm_compute; reflexivity|].
  destruct (@C7_built_transaction Sample.ethers Sample.goodWorld Sample.TOKEN
              "0.0001" 7 _ eq_refl)
    as (funds & own & fullData & fee & Hfunds & Hown & Hfull & Hfee & Htx & _).
  refine (eq_trans Htx _).
  injection Hfunds as <-. injection Hown as <-. injection Hfull as <-.
  injection Hfee as <-. reflexivity.
Defined.

(** C6. Two runs that differ only in what the simulation call answers
    sign and broadcast the same transaction, settle with the same result
    and leave the same counter: the outcome of the simulation reaches
    neither the transaction nor the dispatch result. *)
Theorem C6_simulation_does_not_interfere :
  forall {ethers : Ethers} (w : World)
         (answer1 answer2 : CallRequest -> result string)
         (tokenAddress amountInBNB : string) (currentNonce : Z),
    signedWith (withCall w answer1) tokenAddress amountInBNB currentNonce
    = signedWith (withCall w answer2) tokenAddress amountInBNB currentNonce
    /\ simulateAndBuyViaRouter (withCall w answer1) tokenAddress amountInBNB currentNonce
       = simulateAndBuyViaRouter (withCall w answer2) tokenAddress amountInBNB currentNonce.
Proof.
  intros ethers w answer1 answer2 tokenAddress amountInBNB currentNonce.
  unfold signedWith, simulateAndBuyViaRouter, tryBlock, broadcast, buildAndSign.
  cbn [withCall now wallet rpcProviders getAddress signTransaction provider getFeeData].
  destruct (parseEther amountInBNB) as [funds|]; cbn [bind]; [|split; reflexivity].
  destruct (getAddress (wallet w)) as [own|]; cbn [bind]; [|split; reflexivity].
  destruct (encodeSwapParams _ _ _ _) as [paramsEncoded|]; cbn [bind];
    [|split; reflexivity].
  destruct (simulate _ _) as [ok1 out1]. destruct (simulate _ _) as [ok2 out2].
  destruct (getFeeData (provider (wallet w))) as [fee|]; cbn [bind];
    [|split; reflexivity].
  destruct (signTransaction (wallet w) _) as [signedTx|]; cbn [bind];
    split; reflexivity.
Qed.

(** The simulation is visible in what is logged only: with a reverting
    call and with a call that returns amounts, the dispatch succeeds with
    the same hash. *)
Example simulation_only_logged :
  option_map simulationSuccess
    (match @buildAndSign Sample.ethers Sample.goodWorld Sample.TOKEN "0.0001" 7
     with Ok b => Some b | Throw _ => None end) = Some false
  /\ option_map simulationSuccess
    (match @buildAndSign Sample.ethers
             (withCall Sample.goodWorld (fun _ => Ok "0x2a")) Sample.TOKEN "0.0001" 7
     with Ok b => Some b | Throw _ => None end) = Some true
  /\ @simulateAndBuyViaRouter Sample.ethers Sample.goodWorld Sample.TOKEN "0.0001" 7
     = (Ok (mkDispatchResult true (Some Sample.TX_HASH) None), 8)
  /\ @simulateAndBuyViaRouter Sample.ethers
       (withCall Sample.goodWorld (fun _ => Ok "0x2a")) Sample.TOKEN "0.0001" 7
     = (Ok (mkDispatchResult true (Some Sample.TX_HASH) None), 8).
Proof. repeat split. Qed.

(** A dispatch settles with a failure exactly when something before or in
    the broadcast threw; the counter moves only after a success. *)
Lemma simulateAndBuyViaRouter_cases {ethers : Ethers} (w : World)
    (tokenAddress amountInBNB : string) (currentNonce : Z) :
  (exists hash,
     simulateAndBuyViaRouter w tokenAddress amountInBNB currentNonce
     = (Ok (mkDispatchResult true (Some hash) None), currentNonce + 1))
  \/ (exists message,
     simulateAndBuyViaRouter w tokenAddress amountInBNB currentNonce
     = (Ok (mkDispatchResult false None (Some message)), currentNonce)).
Proof.
  unfold simulateAndBuyViaRouter, tryBlock.
  destruct (buildAndSign w tokenAddress amountInBNB currentNonce) as [b|m].
  - unfold afterBroadcast. destruct (broadcast w b) as [hash|m]; simpl.
    + left. exists hash. reflexivity.
    + right. exists m. reflexivity.
  - right. exists m. reflexivity.
Qed.

(** C9. Whatever the wallet, its provider and the endpoints do, the
    dispatch settles with a [{ success, txHash?, error? }] value and never
    throws: a success carries a hash, a failure carries the message of
    what was thrown. Of the endpoints' failures only the aggregate error
    leaves the broadcaster. *)
Theorem C9_dispatch_never_throws :
  forall {ethers : Ethers} (w : World) (tokenAddress amountInBNB : string)
         (currentNonce : Z),
    (exists r : DispatchResult,
       fst (simulateAndBuyViaRouter w tokenAddress amountInBNB currentNonce) = Ok r
       /\ (success r = true -> exists hash, txHash r = Some hash /\ error r = None)
       /\ (success r = false -> exists message, error r = Some message /\ txHash r = None))
    /\ (forall (rawTx : string) (timeoutMs : Z) (message : string),
          snd (submitRawTx (rpcProviders w) rawTx timeoutMs) = Throw message ->
          message = "All RPC endpoints failed to broadcast transaction").
Proof.
  intros ethers w tokenAddress amountInBNB currentNonce. split.
  - destruct (simulateAndBuyViaRouter_cases w tokenAddress amountInBNB currentNonce)
      as [[hash ->] | [message ->]]; simpl.
    + eexists. split; [reflexivity|]. simpl. split; [eauto | discriminate].
    + eexists. split; [reflexivity|]. simpl. split; [discriminate | eauto].
  - intros rawTx timeoutMs message. apply submitRawTx_throws_only_aggregate.
Qed.

(** C9 on a dispatch whose three endpoints all reject. *)
Lemma C9_witness :
  exists r : DispatchResult,
    fst (@simulateAndBuyViaRouter Sample.ethers Sample.deafWorld Sample.TOKEN
           "0.0001" 7) = Ok r
    /\ (success r = true -> exists hash, txHash r = Some hash /\ error r = None)
    /\ (success r = false -> exists message, error r = Some message /\ txHash r = None).
Proof.
  exact (proj1 (@C9_dispatch_never_throws Sample.ethers Sample.deafWorld
                  Sample.TOKEN "0.0001" 7)).
Defined.

Example deaf_dispatch_reports_failure :
  @simulateAndBuyViaRouter Sample.ethers Sample.deafWorld Sample.TOKEN "0.0001" 7
  = (Ok (mkDispatchResult false None
           (Some "All RPC endpoints failed to broadcast transaction")), 7).
Proof. reflexivity. Qed.

Example sign_failure_keeps_counter :
  @simulateAndBuyViaRouter Sample.ethers Sample.unsignedWorld Sample.TOKEN
    "0.0001" 7
  = (Ok (mkDispatchResult false None (Some "invalid private key")), 7).
Proof. reflexivity. Qed.

(** C4, as stated, fails: after a dispatch whose endpoints all reject, the
    counter still stands at the value that dispatch signed with, and the
    next dispatch signs with the same value, not a greater one. *)
Lemma C4_counterexample :
  exists (used next after : Z),
    @nonceUsed Sample.ethers (Sample.trigger Sample.deafWorld) 7 = Some used
    /\ @simulateAndBuyViaRouter Sample.ethers Sample.deafWorld Sample.TOKEN
         "0.0001" 7
       = (Ok (mkDispatchResult false None (Some ALL_FAILED)), after)
    /\ @nonceUsed Sample.ethers (Sample.otherTrigger Sample.goodWorld) after
       = Some next
    /\ ~ (used < after) /\ ~ (used < next).
Proof.
  exists 7, 7, 7. repeat split; lia.
Qed.

(** C4, amended. A dispatch that ends in failure, be it at build, at
    signing or because every endpoint failed, leaves the counter as it
    was, so the next dispatch signs with the same value; the counter
    advances, by one, exactly when the broadcast succeeded. *)
Theorem C4_failed_dispatch_keeps_nonce :
  forall {ethers : Ethers} (w : World) (tokenAddress amountInBNB : string)
         (currentNonce : Z) (r : DispatchResult) (after : Z),
    simulateAndBuyViaRouter w tokenAddress amountInBNB currentNonce = (Ok r, after) ->
    (success r = false -> after = currentNonce)
    /\ (success r = true -> after = currentNonce + 1)
    /\ (forall (next : Trigger) (b : Built),
          buildAndSign (trig_world next) (trig_token next) (trig_amount next) after
          = Ok b ->
          tx_nonce (txRequest b) = after).
Proof.
  intros ethers w tokenAddress amountInBNB currentNonce r after H.
  split; [|split].
  - destruct (simulateAndBuyViaRouter_cases w tokenAddress amountInBNB currentNonce)
      as [[hash E] | [message E]]; rewrite E in H; injection H as <- <-.
    + discriminate.
    + reflexivity.
  - destruct (simulateAndBuyViaRouter_cases w tokenAddress amountInBNB currentNonce)
      as [[hash E] | [message E]]; rewrite E in H; injection H as <- <-.
    + reflexivity.
    + discriminate.
  - intros next b Hb. eapply buildAndSign_nonce. exact Hb.
Qed.

Lemma C4_witness :
  @simulateAndBuyViaRouter Sample.ethers Sample.deafWorld Sample.TOKEN
    "0.0001" 7
  = (Ok (mkDispatchResult false None (Some ALL_FAILED)), 7)
  /\ (false = false -> 7 = 7).
Proof.
  assert (H : @simulateAndBuyViaRouter Sample.ethers Sample.deafWorld
                Sample.TOKEN "0.0001" 7
              = (Ok (mkDispatchResult false None (Some ALL_FAILED)), 7))
    by reflexivity.
  split; [exact H|].
  exact (proj1 (@C4_failed_dispatch_keeps_nonce Sample.ethers _ _ _ _ _ _ H)).
Defined.

(** ** Overlapping dispatches and the shared counter *)


(** A turn of an instance leaves the counter or advances it by one. *)
Lemma resume_counter {ethers : Ethers} (i : Instance) (n : Z) :
  n <= snd (resume i n) <= n + 1.
Proof.
  unfold resume. destruct (inst_stage i) as [|b|signed r].
  - destruct (buildAndSign _ _ _ n); cbn [snd]; lia.
  - unfold afterBroadcast. destruct (broadcast _ b); cbn [snd]; lia.
  - cbn [snd]. lia.
Qed.

Lemma resumeNth_counter {ethers : Ethers} (insts : list Instance) :
  forall (i : nat) (n : Z), n <= snd (resumeNth i insts n) <= n + 1.
Proof.
  induction insts as [|x rest IH]; intros i n.
  { destruct i; simpl; lia. }
  destruct i as [|i]; simpl.
  - pose proof (resume_counter x n) as H.
    destruct (resume x n) as [x' n']. simpl in *. exact H.
  - specialize (IH i n).
    destruct (resumeNth i rest n) as [rest' n']. simpl in *. exact IH.
Qed.

(** X18. Whatever the order in which dispatches are resumed and refreshes
    arrive, the shared counter never decreases. *)
Lemma run_counter_monotonic {ethers : Ethers} (schedule : list Turn) :
  forall p : Process, currentNonce_value p <= currentNonce_value (run schedule p).
Proof.
  unfold run. induction schedule as [|t rest IH]; intro p; simpl; [lia|].
  specialize (IH (turn p t)).
  assert (currentNonce_value p <= currentNonce_value (turn p t)).
  { destruct t as [i | latestNonce].
    - simpl. pose proof (resumeNth_counter (instances p) i (currentNonce_value p)) as H.
      destruct (resumeNth i (instances p) (currentNonce_value p)) as [insts n'].
      simpl in *. lia.
    - apply refresh_turn_monotonic. }
  lia.
Qed.

(** Resumed twice without interruption, an instance does what
    [simulateAndBuyViaRouter] does. *)
Lemma resume_twice {ethers : Ethers} (t : Trigger) (n : Z) :
  let '(signed, n1) := resume (mkInstance t Triggered) n in
  let '(settled, n2) := resume signed n1 in
  n2 = snd (simulateAndBuyViaRouter (trig_world t) (trig_token t) (trig_amount t) n)
  /\ exists b,
       inst_stage settled
       = Finished b
           (fst (simulateAndBuyViaRouter (trig_world t) (trig_token t)
                   (trig_amount t) n)).
Proof.
  unfold resume, simulateAndBuyViaRouter, tryBlock. cbn [inst_trigger inst_stage].
  destruct (buildAndSign _ _ _ n) as [b|m]; cbn [inst_trigger inst_stage].
  - destruct (afterBroadcast _ n) as [r n']. simpl. eauto.
  - simpl. eauto.
Qed.




Lemma somes_app {A : Type} (xs ys : list (option A)) :
  somes (xs ++ ys) = (somes xs ++ somes ys)%list.
Proof.
  induction xs as [|[x|] xs IH]; simpl; [reflexivity| |exact IH].
  now rewrite IH.
Qed.



(** The same happens when both broadcasts are accepted: both instances
    signed with 7 and the counter ends at 9. *)
Example overlapping_dispatches_share_a_nonce :
  let p := @run Sample.ethers [Resume 0; Resume 1; Resume 0; Resume 1]
             (spawn [Sample.trigger Sample.goodWorld;
                     Sample.otherTrigger Sample.goodWorld] 7) in
  reservedNonces p = [7; 7]
  /\ map succeeded (instances p) = [true; true]
  /\ currentNonce_value p = 9.
Proof. repeat split. Qed.



(** ** The event handler *)

(** X1. A record whose token does not start with the prefix is dropped:
    the listener returns without starting a dispatch, and [submitRawTx] is not
    called on its behalf. *)
Lemma onTokenCreate_drops_other_tokens {ethers : Ethers} (BUY_AMOUNT_BNB : string)
    (ev : TokenCreate) :
  startsWith (toLowerCase (token ev)) "0x4444" = false ->
  onTokenCreate BUY_AMOUNT_BNB ev = Ok []
  /\ forall (w : World) (currentNonce : Z),
       broadcastsFor BUY_AMOUNT_BNB w currentNonce ev = 0%nat.
Proof.
  unfold broadcastsFor, onTokenCreate, TARGET_PREFIX. intros ->.
  split; reflexivity.
Qed.

Lemma onTokenCreate_drops_other_tokens_witness :
  startsWith (toLowerCase (token Sample.otherLaunch)) "0x4444" = false
  /\ onTokenCreate "0.0001" Sample.otherLaunch = Ok []
  /\ forall (w : World) (currentNonce : Z),
       @broadcastsFor Sample.ethers "0.0001" w currentNonce Sample.otherLaunch
       = 0%nat.
Proof.
  split; [reflexivity|].
  exact (@onTokenCreate_drops_other_tokens Sample.ethers "0.0001"
           Sample.otherLaunch eq_refl).
Defined.

(** X2. A record whose token starts with the prefix, and whose launch
    time a [Date] can hold, starts exactly one dispatch, for that token. *)
Lemma onTokenCreate_dispatches_once (BUY_AMOUNT_BNB : string) (ev : TokenCreate) :
  startsWith (toLowerCase (token ev)) "0x4444" = true ->
  0 <= launchTime ev <= 8640000000000 ->
  onTokenCreate BUY_AMOUNT_BNB ev = Ok [(token ev, BUY_AMOUNT_BNB)].
Proof.
  unfold onTokenCreate, TARGET_PREFIX, toISOString, MAX_TIME_VALUE.
  intros -> Hrange. simpl negb. cbv iota.
  destruct (Z.abs (launchTime ev * 1000) <=? 8640000000000000) eqn:Hle;
    [reflexivity | lia].
Qed.

Lemma onTokenCreate_dispatches_once_witness :
  startsWith (toLowerCase (token Sample.launch)) "0x4444" = true
  /\ onTokenCreate "0.0001" Sample.launch = Ok [(Sample.TOKEN, "0.0001")].
Proof.
  split; [reflexivity|].
  apply (onTokenCreate_dispatches_once "0.0001" Sample.launch eq_refl).
  simpl. lia.
Defined.

(** X24. A record whose token starts with the prefix but whose launch time
    lies beyond the range of [Date] makes the listener throw while it logs,
    and no dispatch is started. *)
Lemma onTokenCreate_throws_on_far_launch (BUY_AMOUNT_BNB : string) (ev : TokenCreate) :
  startsWith (toLowerCase (token ev)) "0x4444" = true ->
  8640000000000 < launchTime ev ->
  onTokenCreate BUY_AMOUNT_BNB ev = Throw "Invalid time value".
Proof.
  unfold onTokenCreate, TARGET_PREFIX, toISOString, MAX_TIME_VALUE.
  intros -> Hrange. simpl negb. cbv iota.
  destruct (Z.abs (launchTime ev * 1000) <=? 8640000000000000) eqn:Hle;
    [lia | reflexivity].
Qed.

Example prefix_is_case_insensitive :
  startsWith (toLowerCase "0X4444ABCD") "0x4444" = true
  /\ startsWith (toLowerCase "0x4444abcd") "0x4444" = true
  /\ startsWith (toLowerCase "0x1234abcd") "0x4444" = false.
Proof. repeat split. Qed.

(** C8. The record [farLaunch] carries a token that starts with 0x4444 and
    the launch time 8640000000001: its token matches the prefix, yet the
    listener throws at the log line that formats the launch time and
    starts no dispatch. A record with the same token and an ordinary
    launch time starts one; a record with another token starts none. *)
Theorem C8_matching_record_without_dispatch :
  startsWith (toLowerCase (token Sample.farLaunch)) "0x4444" = true
  /\ onTokenCreate "0.0001" Sample.farLaunch = Throw "Invalid time value"
  /\ onTokenCreate "0.0001" Sample.launch = Ok [(Sample.TOKEN, "0.0001")]
  /\ onTokenCreate "0.0001" Sample.otherLaunch = Ok [].
Proof. repeat split. Qed.

(** * Further properties *)

(** ** The broadcaster, seen from the endpoints *)

Lemma mapi_from_nth_error_some {A B : Type} (f : A -> nat -> B) (xs : list A) :
  forall (k i : nat) (x : A),
    nth_error xs i = Some x ->
    nth_error (mapi_from f k xs) i = Some (f x (k + i)%nat).
Proof.
  induction xs as [|x0 xs IH]; intros k i x Hx.
  - destruct i; discriminate.
  - destruct i as [|i]; simpl in *.
    + injection Hx as <-. do 2 f_equal. lia.
    + rewrite (IH (S k) i x Hx). do 2 f_equal. lia.
Qed.

Lemma mapi_from_app {A B : Type} (f : A -> nat -> B) (xs ys : list A) :
  forall k,
    mapi_from f k (xs ++ ys)
    = (mapi_from f k xs ++ mapi_from f (k + List.length xs) ys)%list.
Proof.
  induction xs as [|x xs IH]; intro k; simpl.
  - now rewrite Nat.add_0_r.
  - rewrite IH. do 3 f_equal. lia.
Qed.

Lemma submissions_payload (pool : list Provider) (rawTx : string) (timeoutMs : Z) :
  submissions pool rawTx timeoutMs
  = mapi (submission (txWithPrefix rawTx) timeoutMs) pool.
Proof. reflexivity. Qed.

(** A submission is accepted exactly when its endpoint answered with a
    non-empty hash before the timer fired. *)
Lemma submission_accepted_iff (tx : string) (timeoutMs : Z) (p : Provider)
    (index : nat) (h : string) :
  accepted (outcome (submission tx timeoutMs p index)) = Some h
  <-> exists after,
        p tx = Answers after (Response h) /\ after < timeoutMs /\ truthy h = true.
Proof.
  unfold submission, race. split.
  - destruct (p tx) as [after reply|]; [|simpl; discriminate].
    destruct (after <? timeoutMs) eqn:Hlt; [|simpl; discriminate].
    destruct reply as [hash| |[m|]]; simpl; try discriminate.
    destruct (truthy hash) eqn:Hh; simpl; [|discriminate].
    rewrite Hh. intro H. injection H as <-.
    exists after. repeat split; [lia | exact Hh].
  - intros [after [-> [Hlt Hh]]].
    assert ((after <? timeoutMs) = true) as -> by lia.
    simpl. rewrite Hh. simpl. rewrite Hh. reflexivity.
Qed.

Lemma submission_settledAt (tx : string) (timeoutMs : Z) (p : Provider)
    (index : nat) :
  settledAt (submission tx timeoutMs p index) <= timeoutMs
  /\ ((p tx = Silent \/ exists after reply,
         p tx = Answers after reply /\ timeoutMs <= after) ->
      settledAt (submission tx timeoutMs p index) = timeoutMs).
Proof.
  unfold submission, race. destruct (p tx) as [after reply|].
  - destruct (after <? timeoutMs) eqn:Hlt; simpl.
    + split; [lia|]. intros [H | [a [r [H Hle]]]]; [discriminate|].
      injection H as <- <-. lia.
    + split; [lia | reflexivity].
  - simpl. split; [lia | reflexivity].
Qed.

Lemma submitRawTx_ok_inv :
  forall (pool : list Provider) (rawTx : string) (timeoutMs : Z) (h : string),
    snd (submitRawTx pool rawTx timeoutMs) = Ok h ->
    h <> ""%string
    /\ exists (i : nat) (p : Provider) (after : Z),
         nth_error pool i = Some p
         /\ p (txWithPrefix rawTx) = Answers after (Response h)
         /\ after < timeoutMs.
Proof.
  intros pool rawTx timeoutMs h. unfold submitRawTx. cbn [snd].
  destruct (firstSuccessful _) as [h0|] eqn:Hfirst; [|discriminate].
  intro H. injection H as ->.
  destruct (firstSuccessful_lowest _ _ Hfirst) as [i [r [Hi [Hacc _]]]].
  rewrite nth_error_map in Hi.
  destruct (nth_error (submissions pool rawTx timeoutMs) i) as [s|] eqn:Hs;
    [|discriminate].
  simpl in Hi. injection Hi as <-.
  rewrite submissions_payload in Hs. unfold mapi in Hs.
  apply mapi_from_nth_error in Hs. destruct Hs as [p [Hp ->]].
  apply submission_accepted_iff in Hacc.
  destruct Hacc as [after [Hans [Hlt Hh]]].
  split.
  - intros ->. discriminate.
  - exists i, p, after. auto.
Qed.

(** X4. A hash returned by [submitRawTx] is not empty and was answered,
    before the timeout, by an endpoint of the pool to the prefixed payload. *)
Theorem submitRawTx_hash_provenance :
  forall (pool : list Provider) (rawTx : string) (timeoutMs : Z) (h : string),
    snd (submitRawTx pool rawTx timeoutMs) = Ok h ->
    h <> ""%string
    /\ exists (i : nat) (p : Provider) (after : Z),
         nth_error pool i = Some p
         /\ p (txWithPrefix rawTx) = Answers after (Response h)
         /\ after < timeoutMs.
Proof. exact submitRawTx_ok_inv. Qed.

Lemma submitRawTx_hash_provenance_witness :
  snd (submitRawTx Sample.mixed "f86b" 5000) = Ok Sample.TX_HASH
  /\ Sample.TX_HASH <> ""%string
  /\ exists (i : nat) (p : Provider) (after : Z),
       nth_error Sample.mixed i = Some p
       /\ p (txWithPrefix "f86b") = Answers after (Response Sample.TX_HASH)
       /\ after < 5000.
Proof.
  split; [reflexivity|].
  exact (submitRawTx_hash_provenance Sample.mixed "f86b" 5000 Sample.TX_HASH eq_refl).
Defined.

Lemma firstSuccessful_none_inv (results : list Settled) :
  firstSuccessful results = None -> Forall (fun r => accepted r = None) results.
Proof.
  induction results as [|r rest IH]; simpl; [constructor|].
  destruct (accepted r) eqn:Hr; [discriminate|].
  intro H. constructor; auto.
Qed.

(** X5. [submitRawTx] throws exactly when no endpoint of the pool answers
    the payload with a non-empty hash before the timeout; in particular it
    throws on an empty pool. *)
Theorem submitRawTx_throws_iff_no_endpoint_accepts :
  forall (pool : list Provider) (rawTx : string) (timeoutMs : Z),
    snd (submitRawTx pool rawTx timeoutMs) = Throw ALL_FAILED
    <-> (forall (p : Provider) (after : Z) (h : string),
           In p pool ->
           p (txWithPrefix rawTx) = Answers after (Response h) ->
           after < timeoutMs -> h = ""%string).
Proof.
  intros pool rawTx timeoutMs. unfold submitRawTx. cbn [snd]. split.
  - destruct (firstSuccessful _) eqn:Hfirst; [discriminate|]. intros _.
    apply firstSuccessful_none_inv in Hfirst. rewrite Forall_forall in Hfirst.
    intros p after h Hin Hans Hlt.
    destruct (In_nth_error _ _ Hin) as [i Hi].
    pose proof (mapi_from_nth_error_some
                  (submission (txWithPrefix rawTx) timeoutMs) pool 0 i p Hi) as Hs.
    assert (Hnone : accepted
                      (outcome (submission (txWithPrefix rawTx) timeoutMs p i))
                    = None).
    { apply Hfirst. apply in_map. rewrite submissions_payload. unfold mapi.
      eapply nth_error_In. exact Hs. }
    destruct (truthy h) eqn:Hh.
    + assert (Hsome : accepted
                        (outcome (submission (txWithPrefix rawTx) timeoutMs p i))
                      = Some h).
      { apply submission_accepted_iff. exists after. auto. }
      congruence.
    + destruct h; [reflexivity | discriminate].
  - intro Hno. rewrite firstSuccessful_none; [reflexivity|].
    apply Forall_forall. intros r Hr. apply in_map_iff in Hr.
    destruct Hr as [s [<- Hin]].
    rewrite submissions_payload in Hin. unfold mapi in Hin.
    destruct (In_nth_error _ _ Hin) as [i Hi].
    apply mapi_from_nth_error in Hi. destruct Hi as [p [Hp ->]].
    destruct (accepted _) as [h|] eqn:Hacc; [|reflexivity].
    apply submission_accepted_iff in Hacc.
    destruct Hacc as [after [Hans [Hlt Hh]]].
    rewrite (Hno p after h (nth_error_In _ _ Hp) Hans Hlt) in Hh. discriminate.
Qed.

Lemma submitRawTx_throws_iff_no_endpoint_accepts_witness :
  snd (submitRawTx [] "f86b" 5000) = Throw ALL_FAILED
  /\ snd (submitRawTx Sample.scenario2 "f86b" 5000) = Throw ALL_FAILED.
Proof.
  split.
  - apply (proj2 (submitRawTx_throws_iff_no_endpoint_accepts [] "f86b" 5000)).
    intros p after h [].
  - apply (proj2 (submitRawTx_throws_iff_no_endpoint_accepts
                    Sample.scenario2 "f86b" 5000)).
    intros p after h [<- | [<- | [<- | []]]]; discriminate.
Defined.

Lemma allSettledAt_le (ss : list Settlement) (bound : Z) :
  0 <= bound ->
  Forall (fun s => settledAt s <= bound) ss -> allSettledAt ss <= bound.
Proof.
  intro Hb. induction 1 as [|s rest Hs _ IH]; simpl; lia.
Qed.

Lemma allSettledAt_ge (ss : list Settlement) (s : Settlement) :
  In s ss -> settledAt s <= allSettledAt ss.
Proof.
  induction ss as [|s0 rest IH]; simpl; [intros [] |].
  intros [-> | Hin]; [lia|]. specialize (IH Hin). lia.
Qed.

Lemma submissions_settle_by_timeout (pool : list Provider) (rawTx : string)
    (timeoutMs : Z) :
  Forall (fun s => settledAt s <= timeoutMs) (submissions pool rawTx timeoutMs).
Proof.
  apply Forall_forall. intros s Hin.
  rewrite submissions_payload in Hin. unfold mapi in Hin.
  destruct (In_nth_error _ _ Hin) as [i Hi].
  apply mapi_from_nth_error in Hi. destruct Hi as [p [_ ->]].
  apply submission_settledAt.
Qed.

(** X6. [submitRawTx] never takes longer than the per-endpoint timeout,
    and it takes exactly that long as soon as one endpoint of the pool
    stays silent or answers too late, even when another one accepted. *)
Theorem submitRawTx_settles_by_timeout :
  forall (pool : list Provider) (rawTx : string) (timeoutMs : Z),
    0 <= timeoutMs ->
    fst (submitRawTx pool rawTx timeoutMs) <= timeoutMs
    /\ (forall p : Provider,
          In p pool ->
          (p (txWithPrefix rawTx) = Silent
           \/ exists after reply,
                p (txWithPrefix rawTx) = Answers after reply /\ timeoutMs <= after) ->
          fst (submitRawTx pool rawTx timeoutMs) = timeoutMs).
Proof.
  intros pool rawTx timeoutMs Ht. unfold submitRawTx. cbn [fst].
  assert (Hle : allSettledAt (submissions pool rawTx timeoutMs) <= timeoutMs).
  { apply allSettledAt_le; [exact Ht | apply submissions_settle_by_timeout]. }
  split; [exact Hle|].
  intros p Hin Hlate.
  destruct (In_nth_error _ _ Hin) as [i Hi].
  pose proof (mapi_from_nth_error_some
                (submission (txWithPrefix rawTx) timeoutMs) pool 0 i p Hi) as Hs.
  apply nth_error_In in Hs.
  pose proof (allSettledAt_ge (submissions pool rawTx timeoutMs) _ Hs) as Hge.
  rewrite (proj2 (submission_settledAt _ timeoutMs p _) Hlate) in Hge.
  lia.
Qed.

Lemma submitRawTx_settles_by_timeout_witness :
  fst (submitRawTx Sample.mixed "f86b" 30000) <= 30000
  /\ fst (submitRawTx Sample.mixed "f86b" 30000) = 30000.
Proof.
  assert (H : 0 <= 30000) by lia.
  destruct (submitRawTx_settles_by_timeout Sample.mixed "f86b" 30000 H)
    as [Hle Heq].
  split; [exact Hle|].
  apply (Heq Sample.silent).
  - right. left. reflexivity.
  - left. reflexivity.
Defined.

Lemma firstSuccessful_app (xs ys : list Settled) :
  firstSuccessful (xs ++ ys)
  = match firstSuccessful xs with
    | Some h => Some h
    | None => firstSuccessful ys
    end.
Proof.
  induction xs as [|r xs IH]; simpl; [reflexivity|].
  destruct (accepted r); [reflexivity | exact IH].
Qed.

(** Whether a submission is accepted, and with which hash, does not
    depend on the index it is given. *)
Lemma accepted_submission_index (tx : string) (timeoutMs : Z) (p : Provider)
    (i j : nat) :
  accepted (outcome (submission tx timeoutMs p i))
  = accepted (outcome (submission tx timeoutMs p j)).
Proof.
  unfold submission. destruct (race timeoutMs (p tx)) as [t reply]. simpl.
  destruct reply as [hash| |[m|]]; simpl; try reflexivity.
  destruct (truthy hash); reflexivity.
Qed.

Lemma firstSuccessful_mapi_from (tx : string) (timeoutMs : Z) (pool : list Provider) :
  forall k k',
    firstSuccessful (map outcome (mapi_from (submission tx timeoutMs) k pool))
    = firstSuccessful (map outcome (mapi_from (submission tx timeoutMs) k' pool)).
Proof.
  induction pool as [|p pool IH]; intros k k'; simpl; [reflexivity|].
  rewrite (accepted_submission_index tx timeoutMs p k k').
  destruct (accepted _); [reflexivity | apply IH].
Qed.

(** X7. Endpoints are tried in pool order: the value [submitRawTx] settles
    with over a pool followed by further endpoints is the one it settles
    with over the pool when that is a hash, and the one it settles with
    over the further endpoints otherwise. Appending endpoints never turns
    a success into a failure nor changes the hash returned. *)
Theorem submitRawTx_pool_order :
  forall (pool more : list Provider) (rawTx : string) (timeoutMs : Z),
    snd (submitRawTx (pool ++ more) rawTx timeoutMs)
    = match snd (submitRawTx pool rawTx timeoutMs) with
      | Ok h => Ok h
      | Throw _ => snd (submitRawTx more rawTx timeoutMs)
      end.
Proof.
  intros pool more rawTx timeoutMs. unfold submitRawTx. cbn [snd].
  rewrite !submissions_payload. unfold mapi.
  rewrite mapi_from_app, map_app, firstSuccessful_app.
  destruct (firstSuccessful (map outcome (mapi_from _ 0 pool))); [reflexivity|].
  rewrite (firstSuccessful_mapi_from _ _ more (0 + List.length pool) 0).
  reflexivity.
Qed.

Lemma countedAsSuccess_submission (tx : string) (timeoutMs : Z) (p : Provider)
    (index : nat) :
  countedAsSuccess (outcome (submission tx timeoutMs p index))
  = match accepted (outcome (submission tx timeoutMs p index)) with
    | Some _ => true
    | None => false
    end.
Proof.
  unfold submission. destruct (race timeoutMs (p tx)) as [t reply]. simpl.
  destruct reply as [hash| |[m|]]; simpl; try reflexivity.
  destruct (truthy hash) eqn:Hh; simpl; [rewrite Hh|]; reflexivity.
Qed.

Lemma successCount_zero_iff (tx : string) (timeoutMs : Z) (pool : list Provider) :
  forall k,
    successCount (map outcome (mapi_from (submission tx timeoutMs) k pool)) = 0%nat
    <-> firstSuccessful (map outcome (mapi_from (submission tx timeoutMs) k pool))
        = None.
Proof.
  unfold successCount.
  induction pool as [|p pool IH]; intro k; simpl; [tauto|].
  rewrite countedAsSuccess_submission.
  destruct (accepted _); simpl.
  - split; discriminate.
  - apply IH.
Qed.

(** X8. The count of accepting endpoints reported after a broadcast
    (line 104) tests [success] only, yet agrees with the loop that looks
    for a hash: the count is zero exactly when [submitRawTx] throws, and
    it never exceeds the size of the pool. A submission marked successful
    always carries a non-empty hash. *)
Theorem successCount_agrees_with_result :
  forall (pool : list Provider) (rawTx : string) (timeoutMs : Z),
    (successCount (map outcome (submissions pool rawTx timeoutMs)) = 0%nat
     <-> snd (submitRawTx pool rawTx timeoutMs) = Throw ALL_FAILED)
    /\ (successCount (map outcome (submissions pool rawTx timeoutMs))
        <= List.length pool)%nat
    /\ (forall s v,
          In s (submissions pool rawTx timeoutMs) ->
          outcome s = Fulfilled v -> sub_success v = true ->
          exists h, sub_hash v = Some h /\ h <> ""%string).
Proof.
  intros pool rawTx timeoutMs. split; [|split].
  - rewrite submissions_payload. unfold mapi. rewrite successCount_zero_iff.
    unfold submitRawTx. cbn [snd]. rewrite submissions_payload. unfold mapi.
    destruct (firstSuccessful _); split; intro H;
      try reflexivity; discriminate.
  - unfold successCount.
    eapply Nat.le_trans; [apply filter_length_le|].
    rewrite length_map, submissions_length. apply Nat.le_refl.
  - intros s v Hin Hv Hsucc.
    rewrite submissions_payload in Hin. unfold mapi in Hin.
    destruct (In_nth_error _ _ Hin) as [i Hi].
    apply mapi_from_nth_error in Hi. destruct Hi as [p [_ ->]].
    revert Hv. unfold submission.
    destruct (race timeoutMs (p (txWithPrefix rawTx))) as [t reply]. simpl.
    destruct reply as [hash| |[m|]]; simpl; try discriminate.
    + destruct (truthy hash) eqn:Hh; simpl; intro H; injection H as <-.
      * exists hash. split; [reflexivity|]. intros ->. discriminate.
      * discriminate.
    + intro H; injection H as <-. discriminate.
    + intro H; injection H as <-. discriminate.
Qed.

Lemma successCount_agrees_with_result_witness :
  successCount (map outcome (submissions Sample.scenario2 "f86b" 5000)) = 0%nat
  /\ successCount (map outcome (submissions Sample.mixed "f86b" 5000)) = 2%nat.
Proof.
  split; [|reflexivity].
  apply (proj2 (proj1 (successCount_agrees_with_result Sample.scenario2 "f86b" 5000))).
  reflexivity.
Defined.

(** ** The hash that is returned *)

(** What the test of the loop means on the fields of an entry. *)
Lemma accepted_some_inv (r : Settled) (h : string) :
  accepted r = Some h ->
  exists v,
    r = Fulfilled v /\ sub_success v = true /\ sub_hash v = Some h
    /\ h <> ""%string.
Proof.
  unfold accepted. destruct r as [v|reason]; [|discriminate].
  destruct (sub_success v) eqn:Hs; [|discriminate].
  destruct (sub_hash v) as [h0|] eqn:Hh; [|discriminate].
  destruct (truthy h0) eqn:Ht; [|discriminate].
  intro H. injection H as <-. exists v.
  repeat split; try assumption. intros ->. discriminate.
Qed.

(** A submission marked successful passes the test of the loop. *)
Lemma submission_success_accepted (tx : string) (timeoutMs : Z) (p : Provider)
    (index : nat) (v : Submission) :
  outcome (submission tx timeoutMs p index) = Fulfilled v ->
  sub_success v = true ->
  exists h, accepted (outcome (submission tx timeoutMs p index)) = Some h.
Proof.
  unfold submission. destruct (race timeoutMs (p tx)) as [t reply]. simpl.
  destruct reply as [hash| |[m|]]; simpl; try discriminate.
  - destruct (truthy hash) eqn:Hh; simpl; intro H; injection H as <-; simpl.
    + intros _. rewrite Hh. eauto.
    + discriminate.
  - intro H; injection H as <-. discriminate.
  - intro H; injection H as <-. discriminate.
Qed.

(** The outcome of a submission depends on the reply that won the race
    only, not on when it came. *)
Lemma submission_outcome_reply (tx : string) (timeoutMs : Z) (p p' : Provider)
    (index : nat) :
  replyInTime timeoutMs (p tx) = replyInTime timeoutMs (p' tx) ->
  outcome (submission tx timeoutMs p index)
  = outcome (submission tx timeoutMs p' index).
Proof.
  unfold submission, race, replyInTime.
  destruct (p tx) as [after reply|]; destruct (p' tx) as [after' reply'|];
    try destruct (after <? timeoutMs); try destruct (after' <? timeoutMs);
    intro H; try discriminate; try reflexivity.
  injection H as <-. reflexivity.
Qed.

Lemma outcomes_same_replies (tx : string) (timeoutMs : Z) (pool pool' : list Provider) :
  Forall2 (fun p p' => replyInTime timeoutMs (p tx) = replyInTime timeoutMs (p' tx))
    pool pool' ->
  forall k,
    map outcome (mapi_from (submission tx timeoutMs) k pool)
    = map outcome (mapi_from (submission tx timeoutMs) k pool').
Proof.
  induction 1 as [|p p' pool pool' Hp _ IH]; intro k; simpl; [reflexivity|].
  rewrite (submission_outcome_reply tx timeoutMs p p' k Hp), IH. reflexivity.
Qed.

(** C10. Whenever some submission is marked successful, [submitRawTx]
    returns the hash of the successful submission with the lowest index in
    the pool: that submission carries its endpoint's index, the success
    flag and the returned hash, which is not empty and which its endpoint
    answered before the timeout; no submission with a lower index is
    marked successful. The value returned is the same for any pool whose
    endpoints give, in pool order, the same replies in time, whatever the
    moments at which they arrive. *)
Theorem C10_lowest_index_success_is_returned :
  forall (pool : list Provider) (rawTx : string) (timeoutMs : Z),
    (Exists (fun s => exists v, outcome s = Fulfilled v /\ sub_success v = true)
        (submissions pool rawTx timeoutMs) ->
     exists (i : nat) (p : Provider) (after : Z) (s : Settlement)
            (v : Submission) (h : string),
       nth_error pool i = Some p
       /\ p (txWithPrefix rawTx) = Answers after (Response h)
       /\ after < timeoutMs
       /\ nth_error (submissions pool rawTx timeoutMs) i = Some s
       /\ outcome s = Fulfilled v
       /\ sub_provider v = i
       /\ sub_success v = true
       /\ sub_hash v = Some h
       /\ h <> ""%string
       /\ (forall j s' v', (j < i)%nat ->
             nth_error (submissions pool rawTx timeoutMs) j = Some s' ->
             outcome s' = Fulfilled v' -> sub_success v' = false)
       /\ snd (submitRawTx pool rawTx timeoutMs) = Ok h)
    /\
    (forall pool' : list Provider,
       Forall2
         (fun p p' =>
            replyInTime timeoutMs (p (txWithPrefix rawTx))
            = replyInTime timeoutMs (p' (txWithPrefix rawTx)))
         pool pool' ->
       snd (submitRawTx pool' rawTx timeoutMs)
       = snd (submitRawTx pool rawTx timeoutMs)).
Proof.
  intros pool rawTx timeoutMs. split.
  - intro Hex.
    assert (Hex' : Exists (fun r => accepted r <> None)
                     (map outcome (submissions pool rawTx timeoutMs))).
    { apply Exists_exists in Hex. destruct Hex as [s [Hin [v [Hv Hs]]]].
      apply Exists_exists. exists (outcome s). split; [apply in_map; exact Hin|].
      rewrite submissions_payload in Hin. unfold mapi in Hin.
      destruct (In_nth_error _ _ Hin) as [k Hk].
      apply mapi_from_nth_error in Hk. destruct Hk as [q [_ ->]].
      destruct (submission_success_accepted _ _ _ _ _ Hv Hs) as [h ->].
      discriminate. }
    destruct (firstSuccessful_some _ Hex') as [h Hh].
    destruct (firstSuccessful_lowest _ _ Hh) as [i [r [Hi [Hacc Hlow]]]].
    rewrite nth_error_map in Hi.
    destruct (nth_error (submissions pool rawTx timeoutMs) i) as [s|] eqn:Hs;
      [|discriminate].
    simpl in Hi. injection Hi as <-.
    pose proof Hs as Hsub. rewrite submissions_payload in Hsub. unfold mapi in Hsub.
    apply mapi_from_nth_error in Hsub. destruct Hsub as [p [Hp Es]].
    destruct (accepted_some_inv _ _ Hacc) as [v [Hv [Hsucc [Hhash Hne]]]].
    assert (Hans : exists after,
               p (txWithPrefix rawTx) = Answers after (Response h)
               /\ after < timeoutMs /\ truthy h = true).
    { apply (submission_accepted_iff _ timeoutMs p (0 + i)%nat h).
      rewrite <- Es. exact Hacc. }
    destruct Hans as [after [Hans [Hlt _]]].
    exists i, p, after, s, v, h.
    split; [exact Hp|]. split; [exact Hans|]. split; [exact Hlt|].
    split; [exact Hs|]. split; [exact Hv|].
    split; [eapply submissions_provider; eauto|].
    split; [exact Hsucc|]. split; [exact Hhash|]. split; [exact Hne|]. split.
    + intros j s' v' Hj Hs' Hv'.
      assert (Hnone : accepted (outcome s') = None).
      { apply (Hlow j); [exact Hj|]. rewrite nth_error_map, Hs'. reflexivity. }
      rewrite submissions_payload in Hs'. unfold mapi in Hs'.
      apply mapi_from_nth_error in Hs'. destruct Hs' as [q [_ ->]].
      destruct (sub_success v') eqn:Hsv; [|reflexivity].
      destruct (submission_success_accepted _ _ _ _ _ Hv' Hsv) as [h' Hsome].
      congruence.
    + unfold submitRawTx. cbn [snd]. now rewrite Hh.
  - intros pool' Hsame. unfold submitRawTx. cbn [snd].
    rewrite !submissions_payload. unfold mapi.
    rewrite (outcomes_same_replies _ _ _ _ Hsame 0%nat). reflexivity.
Qed.

(** C10, on a pool of five endpoints of which the third and the fourth
    accept: the third one's hash is returned although the fourth answered
    first. *)
Lemma C10_witness :
  Exists (fun s => exists v, outcome s = Fulfilled v /\ sub_success v = true)
    (submissions Sample.mixed "f86b" 5000)
  /\ exists (i : nat) (p : Provider) (after : Z) (s : Settlement)
            (v : Submission) (h : string),
       nth_error Sample.mixed i = Some p
       /\ p (txWithPrefix "f86b") = Answers after (Response h)
       /\ after < 5000
       /\ nth_error (submissions Sample.mixed "f86b" 5000) i = Some s
       /\ outcome s = Fulfilled v
       /\ sub_provider v = i
       /\ sub_success v = true
       /\ sub_hash v = Some h
       /\ h <> ""%string
       /\ (forall j s' v', (j < i)%nat ->
             nth_error (submissions Sample.mixed "f86b" 5000) j = Some s' ->
             outcome s' = Fulfilled v' -> sub_success v' = false)
       /\ snd (submitRawTx Sample.mixed "f86b" 5000) = Ok h.
Proof.
  assert (H : Exists
                (fun s => exists v, outcome s = Fulfilled v /\ sub_success v = true)
                (submissions Sample.mixed "f86b" 5000)).
  { apply Exists_cons_tl, Exists_cons_tl, Exists_cons_hd.
    eexists. split; reflexivity. }
  split; [exact H|].
  exact (proj1 (C10_lowest_index_success_is_returned Sample.mixed "f86b" 5000) H).
Defined.

(** The same replies at other moments give the same value: here the third
    endpoint answers last instead of the fourth answering first. *)
Example arrival_order_is_irrelevant :
  snd (submitRawTx
         [Sample.rejects 1 "nonce too low"; Sample.silent;
          Sample.accepts 4999 Sample.TX_HASH; Sample.accepts 2 "0x77";
          fun _ => Answers 3 Nothing] "f86b" 5000)
  = snd (submitRawTx Sample.mixed "f86b" 5000).
Proof. reflexivity. Qed.

(** ** The payload and the calldata *)

Lemma slice_length (n : nat) :
  forall s, String.length (slice n s) = (String.length s - n)%nat.
Proof.
  induction n as [|n IH]; intros [|c s]; simpl; try reflexivity.
  apply IH.
Qed.

Lemma substring_slice (n : nat) :
  forall s, (substring 0 n s ++ slice n s)%string = s.
Proof.
  induction n as [|n IH]; intros [|c s]; simpl; try reflexivity.
  now rewrite IH.
Qed.

Lemma append_length (a b : string) :
  String.length (a ++ b)%string = (String.length a + String.length b)%nat.
Proof. induction a as [|c a IH]; simpl; [reflexivity | now rewrite IH]. Qed.

(** X9. [encodeSwapParams] passes on what the encoder throws, and
    otherwise returns the encoder's output without its first ten
    characters (the 0x and the standard selector): put back behind those
    ten characters it gives the output again, and behind the custom
    selector it gives calldata of the same length. An output shorter than
    ten characters yields the empty string. *)
Theorem encodeSwapParams_drops_ten_characters :
  forall {ethers : Ethers} (amountOutMin : Z) (path : list string) (to : string)
         (deadline : Z),
    match encodeFunctionData amountOutMin path to deadline with
    | Throw m => encodeSwapParams amountOutMin path to deadline = Throw m
    | Ok fullData =>
        exists params,
          encodeSwapParams amountOutMin path to deadline = Ok params
          /\ (substring 0 10 fullData ++ params)%string = fullData
          /\ String.length params = (String.length fullData - 10)%nat
          /\ ((10 <= String.length fullData)%nat ->
              String.length (SWAP_SELECTOR ++ params)%string
              = String.length fullData)
          /\ ((String.length fullData <= 10)%nat -> params = ""%string)
    end.
Proof.
  intros ethers amountOutMin path to deadline. unfold encodeSwapParams.
  destruct (encodeFunctionData amountOutMin path to deadline) as [fullData|m];
    cbn [bind]; [|reflexivity].
  exists (slice 10 fullData). split; [reflexivity|].
  split; [apply substring_slice|].
  split; [apply slice_length|]. split.
  - intro Hlen. rewrite append_length, slice_length.
    change (String.length SWAP_SELECTOR) with 10%nat. lia.
  - intro Hlen. pose proof (slice_length 10 fullData) as H.
    destruct (slice 10 fullData); [reflexivity|]. simpl in H. lia.
Qed.

Lemma encodeSwapParams_drops_ten_characters_witness :
  exists params,
    @encodeSwapParams Sample.ethers 0 [ADDRESSES.WBNB; Sample.TOKEN]
      Sample.OWN_ADDRESS 1700001200 = Ok params
    /\ ("0x7ff36ab5" ++ params)%string
       = ("0x7ff36ab5"
          ++ Sample.swapParams 0 [ADDRESSES.WBNB; Sample.TOKEN]
               Sample.OWN_ADDRESS 1700001200)%string.
Proof.
  pose proof (@encodeSwapParams_drops_ten_characters Sample.ethers 0
                [ADDRESSES.WBNB; Sample.TOKEN] Sample.OWN_ADDRESS 1700001200)
    as H.
  cbn [encodeFunctionData Sample.ethers] in H.
  destruct H as [params [Hp [Hback _]]].
  exists params. split; [exact Hp | exact Hback].
Defined.

(** X10. The dispatch strips the 0x of the signed transaction and
    [submitRawTx] puts it back: when the signer returned 0x followed by a
    body that does not itself start with 0x, every endpoint of the pool is
    given exactly the signed transaction. *)
Theorem endpoints_receive_signed_transaction :
  forall {ethers : Ethers} (w : World) (tokenAddress amountInBNB : string)
         (currentNonce : Z) (b : Built) (body : string),
    buildAndSign w tokenAddress amountInBNB currentNonce = Ok b ->
    signTransaction (wallet w) (txRequest b) = Ok ("0x" ++ body)%string ->
    startsWith body "0x" = false ->
    submissions (rpcProviders w) (rawTx b) BROADCAST_TIMEOUT_MS
    = mapi (submission ("0x" ++ body)%string BROADCAST_TIMEOUT_MS) (rpcProviders w).
Proof.
  intros ethers w tokenAddress amountInBNB currentNonce b body Hb Hsign Hbody.
  apply buildAndSign_inv in Hb.
  destruct Hb as (funds & own & fullData & fee & signedTx
                  & _ & _ & _ & _ & _ & Hsigned & Hraw & _).
  rewrite Hsign in Hsigned. injection Hsigned as <-.
  rewrite submissions_payload, Hraw.
  cbn [slice]. unfold txWithPrefix. rewrite Hbody. reflexivity.
Qed.

Lemma endpoints_receive_signed_transaction_witness :
  exists (b : Built) (body : string),
    @buildAndSign Sample.ethers Sample.goodWorld Sample.TOKEN "0.0001" 7 = Ok b
    /\ signTransaction (wallet Sample.goodWorld) (txRequest b)
       = Ok ("0x" ++ body)%string
    /\ startsWith body "0x" = false
    /\ submissions (rpcProviders Sample.goodWorld) (rawTx b) BROADCAST_TIMEOUT_MS
       = mapi (submission ("0x" ++ body)%string BROADCAST_TIMEOUT_MS)
           (rpcProviders Sample.goodWorld).
Proof.
  eexists. eexists.
  split; [vm_compute; reflexivity|].
  split; [lazy; reflexivity|].
  split; [lazy; reflexivity|].
  exact (@endpoints_receive_signed_transaction Sample.ethers Sample.goodWorld
           Sample.TOKEN "0.0001" 7 _ _ eq_refl eq_refl eq_refl).
Defined.

(** ** The dispatch, step by step *)

(** X11. The call that is simulated is the call that is signed: the
    simulation is run on the destination, data and value of the signed
    transaction, and it is reported as a success exactly when that call
    returned and its result could be decoded. *)
Theorem simulation_runs_the_signed_call :
  forall {ethers : Ethers} (w : World) (tokenAddress amountInBNB : string)
         (currentNonce : Z) (b : Built),
    buildAndSign w tokenAddress amountInBNB currentNonce = Ok b ->
    let simTx :=
      mkCallRequest (tx_to (txRequest b)) (tx_data (txRequest b))
        (tx_value (txRequest b)) in
    (simulationSuccess b, simOut b) = simulate (wallet w) simTx
    /\ (simulationSuccess b = true
        <-> exists simResult simAmounts,
              call (provider (wallet w)) simTx = Ok simResult
              /\ decodeFunctionResult simResult = Ok simAmounts).
Proof.
  intros ethers w tokenAddress amountInBNB currentNonce b Hb simTx.
  apply buildAndSign_inv in Hb.
  destruct Hb as (funds & own & fullData & fee & signedTx
                  & _ & _ & _ & _ & Htx & _ & _ & Hsim).
  assert (E : simTx
              = mkCallRequest ADDRESSES.ROUTER
                  (SWAP_SELECTOR ++ slice 10 fullData)%string funds).
  { unfold simTx. rewrite Htx. reflexivity. }
  rewrite E. split; [exact Hsim|].
  assert (Hflag : simulationSuccess b
                  = fst (simulate (wallet w)
                           (mkCallRequest ADDRESSES.ROUTER
                              (SWAP_SELECTOR ++ slice 10 fullData)%string funds)))
    by (rewrite <- Hsim; reflexivity).
  rewrite Hflag. unfold simulate.
  destruct (call (provider (wallet w)) _) as [simResult|m]; cbn [fst].
  - destruct (decodeFunctionResult simResult) as [simAmounts|m] eqn:Hd; cbn [fst].
    + split; [intros _; eauto | reflexivity].
    + split; [discriminate|]. intros (r & a & Hr & Ha).
      injection Hr as <-. congruence.
  - split; [discriminate|]. intros (r & a & Hr & _). discriminate.
Qed.

Lemma simulation_runs_the_signed_call_witness :
  exists b : Built,
    @buildAndSign Sample.ethers Sample.goodWorld Sample.TOKEN "0.0001" 7 = Ok b
    /\ (simulationSuccess b, simOut b)
       = @simulate Sample.ethers (wallet Sample.goodWorld)
           (mkCallRequest (tx_to (txRequest b)) (tx_data (txRequest b))
              (tx_value (txRequest b))).
Proof.
  eexists. split; [vm_compute; reflexivity|].
  exact (proj1 (@simulation_runs_the_signed_call Sample.ethers Sample.goodWorld
                  Sample.TOKEN "0.0001" 7 _ eq_refl)).
Defined.

(** X12. A dispatch that failed with any other error than "All RPC
    endpoints failed to broadcast transaction" did not call
    [submitRawTx]: nothing was sent to any endpoint. A dispatch that did
    call it and failed reports exactly that error. *)
Theorem other_error_means_nothing_was_broadcast :
  forall {ethers : Ethers} (w : World) (tokenAddress amountInBNB : string)
         (currentNonce : Z) (r : DispatchResult) (after : Z),
    simulateAndBuyViaRouter w tokenAddress amountInBNB currentNonce = (Ok r, after) ->
    success r = false ->
    (error r <> Some ALL_FAILED ->
     broadcasterCalls w tokenAddress amountInBNB currentNonce = 0%nat)
    /\ (broadcasterCalls w tokenAddress amountInBNB currentNonce = 1%nat ->
        error r = Some ALL_FAILED).
Proof.
  intros ethers w tokenAddress amountInBNB currentNonce r after.
  unfold simulateAndBuyViaRouter, tryBlock, broadcasterCalls.
  destruct (buildAndSign w tokenAddress amountInBNB currentNonce) as [b|m].
  - unfold afterBroadcast. destruct (broadcast w b) as [hash|m] eqn:Hbr; simpl.
    + intro H. injection H as <- <-. discriminate.
    + intro H. injection H as <- <-. intros _. simpl.
      unfold broadcast in Hbr.
      apply submitRawTx_throws_only_aggregate in Hbr. subst m.
      split; [congruence | reflexivity].
  - simpl. intro H. injection H as <- <-. intros _.
    split; [reflexivity | discriminate].
Qed.

Lemma other_error_means_nothing_was_broadcast_witness :
  @broadcasterCalls Sample.ethers Sample.unsignedWorld Sample.TOKEN "0.0001" 7 = 0%nat
  /\ (@broadcasterCalls Sample.ethers Sample.deafWorld Sample.TOKEN "0.0001" 7 = 1%nat ->
      Some ALL_FAILED = Some ALL_FAILED).
Proof.
  split.
  - apply (proj1 (@other_error_means_nothing_was_broadcast Sample.ethers
                    Sample.unsignedWorld Sample.TOKEN "0.0001" 7
                    (mkDispatchResult false None (Some "invalid private key")) 7
                    eq_refl eq_refl)).
    simpl. discriminate.
  - exact (proj2 (@other_error_means_nothing_was_broadcast Sample.ethers
                    Sample.deafWorld Sample.TOKEN "0.0001" 7
                    (mkDispatchResult false None (Some ALL_FAILED)) 7
                    eq_refl eq_refl)).
Defined.

(** X13. An amount that [parseEther] rejects fails every dispatch with the
    parser's message, whatever the token, the clock, the wallet and the
    endpoints: nothing is broadcast and the counter is left alone. *)
Theorem unparsable_amount_fails_every_dispatch :
  forall {ethers : Ethers} (amountInBNB m : string),
    parseEther amountInBNB = Throw m ->
    forall (w : World) (tokenAddress : string) (currentNonce : Z),
      simulateAndBuyViaRouter w tokenAddress amountInBNB currentNonce
      = (Ok (mkDispatchResult false None (Some m)), currentNonce)
      /\ broadcasterCalls w tokenAddress amountInBNB currentNonce = 0%nat.
Proof.
  intros ethers amountInBNB m Hm w tokenAddress currentNonce.
  unfold simulateAndBuyViaRouter, tryBlock, broadcasterCalls, buildAndSign.
  rewrite Hm. cbn [bind]. split; reflexivity.
Qed.

Lemma unparsable_amount_fails_every_dispatch_witness :
  @simulateAndBuyViaRouter Sample.ethers Sample.goodWorld Sample.TOKEN "0,01" 7
  = (Ok (mkDispatchResult false None (Some "invalid FixedNumber string value")), 7)
  /\ @broadcasterCalls Sample.ethers Sample.goodWorld Sample.TOKEN "0,01" 7 = 0%nat.
Proof.
  exact (@unparsable_amount_fails_every_dispatch Sample.ethers "0,01"
           "invalid FixedNumber string value" eq_refl Sample.goodWorld
           Sample.TOKEN 7).
Defined.

(** X14. The fallback gas price covers a missing or zero estimate only:
    when [getFeeData] itself throws, after the amount, the address and the
    calldata were obtained, the dispatch fails with that error, signs
    nothing and broadcasts nothing. *)
Theorem failing_fee_estimate_aborts_dispatch :
  forall {ethers : Ethers} (w : World) (tokenAddress amountInBNB : string)
         (currentNonce funds : Z) (own fullData m : string),
    parseEther amountInBNB = Ok funds ->
    getAddress (wallet w) = Ok own ->
    encodeFunctionData 0 [ADDRESSES.WBNB; tokenAddress] own
      (now w / 1000 + 20 * 60) = Ok fullData ->
    getFeeData (provider (wallet w)) = Throw m ->
    simulateAndBuyViaRouter w tokenAddress amountInBNB currentNonce
    = (Ok (mkDispatchResult false None (Some m)), currentNonce)
    /\ broadcasterCalls w tokenAddress amountInBNB currentNonce = 0%nat
    /\ forall sign' : TxRequest -> result string,
         simulateAndBuyViaRouter
           (mkWorld (now w)
              (mkWallet (getAddress (wallet w)) sign' (provider (wallet w)))
              (rpcProviders w))
           tokenAddress amountInBNB currentNonce
         = (Ok (mkDispatchResult false None (Some m)), currentNonce).
Proof.
  intros ethers w tokenAddress amountInBNB currentNonce funds own fullData m
         Hfunds Hown Hfull Hfee.
  unfold simulateAndBuyViaRouter, tryBlock, broadcasterCalls, buildAndSign,
    encodeSwapParams.
  cbn [now wallet rpcProviders getAddress provider].
  rewrite Hfunds. cbn [bind]. rewrite Hown. cbn [bind]. rewrite Hfull. cbn [bind].
  repeat split.
  - destruct (simulate (wallet w) _). rewrite Hfee. reflexivity.
  - destruct (simulate (wallet w) _). rewrite Hfee. reflexivity.
  - intro sign'. destruct (simulate _ _). rewrite Hfee. reflexivity.
Qed.

Lemma failing_fee_estimate_aborts_dispatch_witness :
  @simulateAndBuyViaRouter Sample.ethers Sample.feelessWorld Sample.TOKEN "0.0001" 7
  = (Ok (mkDispatchResult false None (Some "could not detect network")), 7)
  /\ @broadcasterCalls Sample.ethers Sample.feelessWorld Sample.TOKEN "0.0001" 7
     = 0%nat.
Proof.
  destruct (@failing_fee_estimate_aborts_dispatch Sample.ethers Sample.feelessWorld
              Sample.TOKEN "0.0001" 7 _ _ _ _ eq_refl eq_refl eq_refl eq_refl)
    as [Hr [Hc _]].
  split; [exact Hr | exact Hc].
Defined.

(** X15. The gas price of a signed transaction is never zero: a zero
    estimate is replaced by 3 gwei like a missing one; and it is positive
    whenever the estimate, if there is one, is not negative. *)
Theorem gas_price_is_never_zero :
  forall {ethers : Ethers} (w : World) (tokenAddress amountInBNB : string)
         (currentNonce : Z) (b : Built),
    buildAndSign w tokenAddress amountInBNB currentNonce = Ok b ->
    tx_gasPrice (txRequest b) <> 0
    /\ ((forall fee p,
           getFeeData (provider (wallet w)) = Ok fee ->
           fee_gasPrice fee = Some p -> 0 <= p) ->
        0 < tx_gasPrice (txRequest b)).
Proof.
  intros ethers w tokenAddress amountInBNB currentNonce b Hb.
  apply buildAndSign_inv in Hb.
  destruct Hb as (funds & own & fullData & fee & signedTx
                  & _ & _ & _ & Hfee & Htx & _).
  rewrite Htx. cbn [tx_gasPrice]. unfold orElse, THREE_GWEI.
  destruct (fee_gasPrice fee) as [p|] eqn:Hp.
  - destruct (p =? 0) eqn:Hz.
    + split; [lia | intros _; lia].
    + split; [lia|]. intro Hpos. specialize (Hpos fee p Hfee Hp). lia.
  - split; [lia | intros _; lia].
Qed.

Lemma gas_price_is_never_zero_witness :
  exists b : Built,
    @buildAndSign Sample.ethers Sample.zeroFeeWorld Sample.TOKEN "0.0001" 7 = Ok b
    /\ tx_gasPrice (txRequest b) <> 0
    /\ tx_gasPrice (txRequest b) = 3000000000.
Proof.
  eexists. split; [vm_compute; reflexivity|]. split; [|reflexivity].
  exact (proj1 (@gas_price_is_never_zero Sample.ethers Sample.zeroFeeWorld
                  Sample.TOKEN "0.0001" 7 _ eq_refl)).
Defined.

(** X16. The deadline handed to the encoder is a whole number of seconds
    that lies more than 19 minutes 59 seconds and at most 20 minutes after
    the clock reading in milliseconds. *)
Theorem deadline_is_twenty_minutes_ahead :
  forall {ethers : Ethers} (w : World) (tokenAddress amountInBNB : string)
         (currentNonce : Z) (b : Built),
    buildAndSign w tokenAddress amountInBNB currentNonce = Ok b ->
    exists (own fullData : string) (deadline : Z),
      getAddress (wallet w) = Ok own
      /\ encodeFunctionData 0 [ADDRESSES.WBNB; tokenAddress] own deadline
         = Ok fullData
      /\ tx_data (txRequest b) = (SWAP_SELECTOR ++ slice 10 fullData)%string
      /\ now w + 1199000 < deadline * 1000 <= now w + 1200000.
Proof.
  intros ethers w tokenAddress amountInBNB currentNonce b Hb.
  apply buildAndSign_inv in Hb.
  destruct Hb as (funds & own & fullData & fee & signedTx
                  & _ & Hown & Hfull & _ & Htx & _).
  exists own, fullData, (now w / 1000 + 20 * 60).
  split; [exact Hown|]. split; [exact Hfull|].
  split; [rewrite Htx; reflexivity|].
  pose proof (Z.div_mod (now w) 1000 ltac:(lia)) as Hdm.
  pose proof (Z.mod_pos_bound (now w) 1000 ltac:(lia)) as Hmod.
  lia.
Qed.

Lemma deadline_is_twenty_minutes_ahead_witness :
  exists (b : Built) (own fullData : string) (deadline : Z),
    @buildAndSign Sample.ethers Sample.goodWorld Sample.TOKEN "0.0001" 7 = Ok b
    /\ getAddress (wallet Sample.goodWorld) = Ok own
    /\ @encodeFunctionData Sample.ethers 0 [ADDRESSES.WBNB; Sample.TOKEN] own
         deadline = Ok fullData
    /\ now Sample.goodWorld + 1199000 < deadline * 1000
       <= now Sample.goodWorld + 1200000.
Proof.
  destruct (@deadline_is_twenty_minutes_ahead Sample.ethers Sample.goodWorld
              Sample.TOKEN "0.0001" 7 _ eq_refl)
    as (own & fullData & deadline & Hown & Hfull & _ & Hwin).
  eexists. exists own, fullData, deadline.
  split; [reflexivity|]. auto.
Defined.

(** X17. A dispatch that reports success reports a non-empty hash that an
    endpoint of the pool answered, within 30000 ms, to the payload it
    signed with the counter's value; the counter is then one higher. *)
Theorem successful_dispatch_hash_provenance :
  forall {ethers : Ethers} (w : World) (tokenAddress amountInBNB : string)
         (currentNonce : Z) (r : DispatchResult) (after : Z),
    simulateAndBuyViaRouter w tokenAddress amountInBNB currentNonce = (Ok r, after) ->
    success r = true ->
    exists (b : Built) (h : string) (i : nat) (p : Provider) (answeredAfter : Z),
      buildAndSign w tokenAddress amountInBNB currentNonce = Ok b
      /\ tx_nonce (txRequest b) = currentNonce
      /\ txHash r = Some h /\ h <> ""%string
      /\ nth_error (rpcProviders w) i = Some p
      /\ p (txWithPrefix (rawTx b)) = Answers answeredAfter (Response h)
      /\ answeredAfter < 30000
      /\ after = currentNonce + 1.
Proof.
  intros ethers w tokenAddress amountInBNB currentNonce r after.
  unfold simulateAndBuyViaRouter, tryBlock.
  destruct (buildAndSign w tokenAddress amountInBNB currentNonce) as [b|m] eqn:Hb.
  - unfold afterBroadcast. destruct (broadcast w b) as [hash|m] eqn:Hbr; simpl.
    + intro H. injection H as <- <-. intros _.
      unfold broadcast in Hbr. apply submitRawTx_ok_inv in Hbr.
      destruct Hbr as [Hne (i & p & t & Hi & Hp & Ht)].
      exists b, hash, i, p, t.
      split; [reflexivity|].
      split; [eapply buildAndSign_nonce; exact Hb|].
      split; [reflexivity|]. split; [exact Hne|].
      split; [exact Hi|]. split; [exact Hp|].
      split; [exact Ht | reflexivity].
    + intro H. injection H as <- <-. discriminate.
  - simpl. intro H. injection H as <- <-. discriminate.
Qed.

Lemma successful_dispatch_hash_provenance_witness :
  exists (b : Built) (h : string) (i : nat) (p : Provider) (answeredAfter : Z),
    @buildAndSign Sample.ethers Sample.goodWorld Sample.TOKEN "0.0001" 7 = Ok b
    /\ tx_nonce (txRequest b) = 7
    /\ Some Sample.TX_HASH = Some h /\ h <> ""%string
    /\ nth_error (rpcProviders Sample.goodWorld) i = Some p
    /\ p (txWithPrefix (rawTx b)) = Answers answeredAfter (Response h)
    /\ answeredAfter < 30000
    /\ 8 = 7 + 1.
Proof.
  exact (@successful_dispatch_hash_provenance Sample.ethers Sample.goodWorld
           Sample.TOKEN "0.0001" 7
           (mkDispatchResult true (Some Sample.TX_HASH) None) 8 eq_refl eq_refl).
Defined.

(** ** The shared counter under any interleaving *)

Lemma resume_counts_success {ethers : Ethers} (x : Instance) (n : Z) :
  snd (resume x n) - b2z (succeeded (fst (resume x n))) = n - b2z (succeeded x).
Proof.
  unfold resume, succeeded. destruct x as [t [|b|signed r]]; cbn [inst_trigger inst_stage].
  - destruct (buildAndSign _ _ _ n); simpl; lia.
  - unfold afterBroadcast. destruct (broadcast _ b); simpl; lia.
  - reflexivity.
Qed.

Lemma successes_cons (x : Instance) (rest : list Instance) :
  Z.of_nat (List.length (filter succeeded (x :: rest)))
  = b2z (succeeded x) + Z.of_nat (List.length (filter succeeded rest)).
Proof.
  cbn [filter]. destruct (succeeded x); cbn [List.length b2z]; lia.
Qed.

Lemma resumeNth_counts_success {ethers : Ethers} (insts : list Instance) :
  forall (i : nat) (n : Z),
    snd (resumeNth i insts n)
    - Z.of_nat (List.length (filter succeeded (fst (resumeNth i insts n))))
    = n - Z.of_nat (List.length (filter succeeded insts)).
Proof.
  induction insts as [|x rest IH]; intros i n.
  { destruct i; reflexivity. }
  destruct i as [|i]; cbn [resumeNth].
  - pose proof (resume_counts_success x n) as H.
    destruct (resume x n) as [x' n']. cbn [fst snd] in *.
    rewrite !successes_cons. lia.
  - specialize (IH i n).
    destruct (resumeNth i rest n) as [rest' n']. cbn [fst snd] in *.
    rewrite !successes_cons. lia.
Qed.

Lemma run_counts_successes {ethers : Ethers} (schedule : list Turn) :
  forall p : Process,
    forallb isResume schedule = true ->
    currentNonce_value (run schedule p) - Z.of_nat (successes (run schedule p))
    = currentNonce_value p - Z.of_nat (successes p).
Proof.
  unfold run. induction schedule as [|t rest IH]; intros p Hres; [reflexivity|].
  simpl in Hres. apply andb_true_iff in Hres. destruct Hres as [Ht Hrest].
  cbn [fold_left]. rewrite (IH (turn p t) Hrest).
  destruct t as [i | latestNonce]; [|discriminate].
  unfold turn, successes.
  pose proof (resumeNth_counts_success (instances p) i (currentNonce_value p)) as H.
  destruct (resumeNth i (instances p) (currentNonce_value p)) as [insts n'].
  cbn [fst snd instances currentNonce_value] in *. exact H.
Qed.

Lemma spawn_successes {ethers : Ethers} (ts : list Trigger) (initial : Z) :
  successes (spawn ts initial) = 0%nat.
Proof.
  unfold successes, spawn. cbn [instances].
  induction ts as [|t ts IH]; simpl; [reflexivity | exact IH].
Qed.

(** X19. Between refreshes the counter counts the broadcasts that
    succeeded: however the dispatches of a process interleave, the counter
    equals its initial value plus the number of instances that have
    settled with a success, wherever the schedule stops. *)
Theorem counter_counts_successful_dispatches :
  forall {ethers : Ethers} (schedule : list Turn) (ts : list Trigger) (initial : Z),
    forallb isResume schedule = true ->
    currentNonce_value (run schedule (spawn ts initial))
    = initial + Z.of_nat (successes (run schedule (spawn ts initial))).
Proof.
  intros ethers schedule ts initial Hres.
  pose proof (run_counts_successes schedule (spawn ts initial) Hres) as H.
  rewrite spawn_successes in H. cbn [spawn currentNonce_value] in H. lia.
Qed.

Lemma counter_counts_successful_dispatches_witness :
  currentNonce_value
    (@run Sample.ethers [Resume 0; Resume 1; Resume 0; Resume 1]
       (spawn [Sample.trigger Sample.goodWorld;
               Sample.otherTrigger Sample.contestedWorld] 7))
  = 7 + Z.of_nat
          (successes
             (@run Sample.ethers [Resume 0; Resume 1; Resume 0; Resume 1]
                (spawn [Sample.trigger Sample.goodWorld;
                        Sample.otherTrigger Sample.contestedWorld] 7))).
Proof.
  exact (@counter_counts_successful_dispatches Sample.ethers
           [Resume 0; Resume 1; Resume 0; Resume 1]
           [Sample.trigger Sample.goodWorld;
            Sample.otherTrigger Sample.contestedWorld] 7 eq_refl).
Defined.





Lemma reserved_in_somes (insts : list Instance) (r : Z) :
  In r (somes (map reserved insts)) <-> exists i, In i insts /\ reserved i = Some r.
Proof.
  induction insts as [|x rest IH]; simpl.
  - split; [intros [] | intros [i [[] _]]].
  - destruct (reserved x) as [rx|] eqn:Hx; simpl; rewrite IH; split.
    + intros [<- | [i [Hin Hi]]]; eauto.
    + intros [i [[<- | Hin] Hi]]; [left; congruence | right; eauto].
    + intros [i [Hin Hi]]; eauto.
    + intros [i [[<- | Hin] Hi]]; [congruence | eauto].
Qed.

Lemma resume_reserved_bounds {ethers : Ethers} (lo : Z) (x : Instance) (n : Z) :
  lo <= n ->
  (forall r, reserved x = Some r -> lo <= r <= n) ->
  forall r, reserved (fst (resume x n)) = Some r -> lo <= r <= snd (resume x n).
Proof.
  intros Hlo Hx r. pose proof (resume_counter x n) as Hc. revert Hc.
  unfold resume, reserved in *. destruct x as [t [|b|signed res]];
    cbn [inst_trigger inst_stage] in *.
  - destruct (buildAndSign _ _ _ n) as [b|m] eqn:Hb; cbn [fst snd inst_stage].
    + intros _ H. injection H as <-.
      rewrite (buildAndSign_nonce _ _ _ _ _ Hb). lia.
    + intros _ H. discriminate.
  - destruct (afterBroadcast _ n) as [res n']. cbn [fst snd inst_stage].
    intros Hc H. specialize (Hx r H). lia.
  - cbn [fst snd inst_stage]. intros _ H. apply Hx. exact H.
Qed.

Lemma resumeNth_reserved_bounds {ethers : Ethers} (lo : Z) (insts : list Instance) :
  forall (i : nat) (n : Z),
    lo <= n ->
    Forall (fun x => forall r, reserved x = Some r -> lo <= r <= n) insts ->
    Forall (fun x => forall r, reserved x = Some r ->
                               lo <= r <= snd (resumeNth i insts n))
      (fst (resumeNth i insts n)).
Proof.
  induction insts as [|x rest IH]; intros i n Hlo Hall.
  { destruct i; constructor. }
  inversion Hall as [|? ? Hx Hrest]; subst.
  destruct i as [|i]; cbn [resumeNth].
  - pose proof (resume_reserved_bounds lo x n Hlo Hx) as H.
    pose proof (resume_counter x n) as Hc.
    destruct (resume x n) as [x' n']. cbn [fst snd] in *.
    constructor; [exact H|].
    eapply Forall_impl; [|exact Hrest]. intros y Hy r Hr.
    specialize (Hy r Hr). lia.
  - specialize (IH i n Hlo Hrest).
    pose proof (resumeNth_counter rest i n) as Hc.
    destruct (resumeNth i rest n) as [rest' n']. cbn [fst snd] in *.
    constructor; [|exact IH].
    intros r Hr. specialize (Hx r Hr). lia.
Qed.

Lemma turn_counter_monotonic {ethers : Ethers} (p : Process) (t : Turn) :
  currentNonce_value p <= currentNonce_value (turn p t).
Proof.
  destruct t as [i | latestNonce].
  - simpl. pose proof (resumeNth_counter (instances p) i (currentNonce_value p)) as H.
    destruct (resumeNth i (instances p) (currentNonce_value p)) as [insts n'].
    simpl in *. lia.
  - apply refresh_turn_monotonic.
Qed.

Lemma run_reserved_bounds {ethers : Ethers} (lo : Z) (schedule : list Turn) :
  forall p : Process,
    lo <= currentNonce_value p ->
    Forall (fun x => forall r, reserved x = Some r ->
                               lo <= r <= currentNonce_value p) (instances p) ->
    Forall (fun x => forall r, reserved x = Some r ->
                               lo <= r <= currentNonce_value (run schedule p))
      (instances (run schedule p)).
Proof.
  unfold run. induction schedule as [|t rest IH]; intros p Hlo Hall; [exact Hall|].
  cbn [fold_left]. apply IH.
  - pose proof (turn_counter_monotonic p t) as H. lia.
  - destruct t as [i | latestNonce]; unfold turn.
    + pose proof (resumeNth_reserved_bounds lo (instances p) i
                    (currentNonce_value p) Hlo Hall) as H.
      destruct (resumeNth i (instances p) (currentNonce_value p)) as [insts n'].
      cbn [fst snd instances currentNonce_value] in *. exact H.
    + cbn [instances currentNonce_value].
      pose proof (refresh_turn_monotonic p latestNonce) as Hm. simpl in Hm.
      eapply Forall_impl; [|exact Hall]. intros y Hy r Hr.
      specialize (Hy r Hr). lia.
Qed.

(** X21. Under every interleaving of dispatches and refreshes, a nonce an
    instance signed with lies between the initial value of the counter and
    the counter's current value: no dispatch signs with a nonce ahead of
    the counter or below its start. *)
Theorem reserved_nonces_stay_within_counter :
  forall {ethers : Ethers} (schedule : list Turn) (ts : list Trigger)
         (initial used : Z),
    In used (reservedNonces (run schedule (spawn ts initial))) ->
    initial <= used <= currentNonce_value (run schedule (spawn ts initial)).
Proof.
  intros ethers schedule ts initial used Hin.
  unfold reservedNonces in Hin. apply reserved_in_somes in Hin.
  destruct Hin as [i [Hi Hr]].
  assert (Hinv : Forall (fun x => forall r, reserved x = Some r ->
                    initial <= r <= currentNonce_value (run schedule (spawn ts initial)))
                   (instances (run schedule (spawn ts initial)))).
  { apply run_reserved_bounds.
    - simpl. lia.
    - unfold spawn. cbn [instances]. apply Forall_forall. intros x Hx.
      apply in_map_iff in Hx. destruct Hx as [t [<- _]]. intros r Hr'.
      discriminate. }
  rewrite Forall_forall in Hinv. exact (Hinv i Hi used Hr).
Qed.

Lemma reserved_nonces_stay_within_counter_witness :
  In 7 (reservedNonces
          (@run Sample.ethers [Resume 0; Resume 1; Refresh 12; Resume 0]
             (spawn [Sample.trigger Sample.goodWorld;
                     Sample.otherTrigger Sample.contestedWorld] 7)))
  /\ 7 <= 7 <= currentNonce_value
                 (@run Sample.ethers [Resume 0; Resume 1; Refresh 12; Resume 0]
                    (spawn [Sample.trigger Sample.goodWorld;
                            Sample.otherTrigger Sample.contestedWorld] 7)).
Proof.
  assert (H : In 7 (reservedNonces
                      (@run Sample.ethers [Resume 0; Resume 1; Refresh 12; Resume 0]
                         (spawn [Sample.trigger Sample.goodWorld;
                                 Sample.otherTrigger Sample.contestedWorld] 7)))).
  { left. reflexivity. }
  split; [exact H|].
  exact (@reserved_nonces_stay_within_counter Sample.ethers _ _ _ _ H).
Defined.

(** ** A series of refreshes *)

Lemma refreshNonce_max (latestNonce currentNonce : Z) :
  refreshNonce latestNonce currentNonce = Z.max latestNonce currentNonce.
Proof.
  unfold refreshNonce. destruct (latestNonce >? currentNonce) eqn:H; lia.
Qed.

Lemma refreshAll_fold_max (latest : list Z) :
  forall n, refreshAll latest n = fold_right Z.max n latest.
Proof.
  unfold refreshAll. induction latest as [|l rest IH]; intro n; [reflexivity|].
  cbn [fold_left fold_right]. rewrite IH, refreshNonce_max.
  clear IH. revert n. induction rest as [|l' rest IH]; intro n; simpl.
  - lia.
  - rewrite IH. lia.
Qed.

Lemma fold_max_bounds (latest : list Z) (n : Z) :
  n <= fold_right Z.max n latest
  /\ (forall l, In l latest -> l <= fold_right Z.max n latest)
  /\ (fold_right Z.max n latest = n \/ In (fold_right Z.max n latest) latest).
Proof.
  induction latest as [|l rest [IHn [IHl IHin]]]; simpl.
  - split; [lia|]. split; [intros l [] | left; reflexivity].
  - split; [lia|]. split.
    + intros l' [<- | Hin]; [lia|]. specialize (IHl l' Hin). lia.
    + destruct (Z.max_spec l (fold_right Z.max n rest)) as [[_ ->] | [_ ->]].
      * destruct IHin as [-> | Hin]; [left; reflexivity | right; right; exact Hin].
      * right. left. reflexivity.
Qed.

Lemma fold_max_perm (n : Z) (latest latest' : list Z) :
  Permutation latest latest' ->
  fold_right Z.max n latest' = fold_right Z.max n latest.
Proof.
  induction 1 as [| x l l' _ IH | x y l | l l' l'' _ IH1 _ IH2]; simpl.
  - reflexivity.
  - now rewrite IH.
  - lia.
  - now rewrite IH2.
Qed.

(** X22. After any series of refreshes the counter holds the largest of
    its previous value and the values the refreshes observed; the order in
    which the refreshes arrive does not matter. *)
Theorem refreshes_keep_the_maximum :
  forall (latest : list Z) (currentNonce : Z),
    currentNonce <= refreshAll latest currentNonce
    /\ (forall l, In l latest -> l <= refreshAll latest currentNonce)
    /\ (refreshAll latest currentNonce = currentNonce
        \/ In (refreshAll latest currentNonce) latest)
    /\ (forall latest', Permutation latest latest' ->
          refreshAll latest' currentNonce = refreshAll latest currentNonce).
Proof.
  intros latest currentNonce. rewrite refreshAll_fold_max.
  destruct (fold_max_bounds latest currentNonce) as [Hn [Hl Hin]].
  split; [exact Hn|]. split; [exact Hl|]. split; [exact Hin|].
  intros latest' Hperm. rewrite refreshAll_fold_max.
  apply fold_max_perm. exact Hperm.
Qed.

Lemma refreshes_keep_the_maximum_witness :
  refreshAll [9; 12; 5] 7 = refreshAll [5; 9; 12] 7
  /\ 12 <= refreshAll [5; 9; 12] 7.
Proof.
  destruct (refreshes_keep_the_maximum [5; 9; 12] 7) as [_ [Hl [_ Hperm]]].
  split.
  - apply Hperm. apply Permutation_sym.
    change [9; 12; 5] with ([9; 12] ++ [5])%list.
    change [5; 9; 12] with ([5] ++ [9; 12])%list.
    apply Permutation_app_comm.
  - apply Hl. simpl. auto.
Defined.

(** ** The event handler and the configuration *)

Lemma prefix_cons (a b : ascii) (s1 s2 : string) :
  String.prefix (String a s1) (String b s2) = true
  <-> a = b /\ String.prefix s1 s2 = true.
Proof.
  simpl. destruct (ascii_dec a b) as [->|Hne].
  - tauto.
  - split; [discriminate | intros [E _]; contradiction].
Qed.

Lemma lowerChar_zero (c : ascii) : "0"%char = lowerChar c -> c = "0"%char.
Proof.
  destruct c as [[] [] [] [] [] [] [] []]; vm_compute; intro H;
    first [reflexivity | discriminate].
Qed.

Lemma lowerChar_four (c : ascii) : "4"%char = lowerChar c -> c = "4"%char.
Proof.
  destruct c as [[] [] [] [] [] [] [] []]; vm_compute; intro H;
    first [reflexivity | discriminate].
Qed.

Lemma lowerChar_x (c : ascii) :
  "x"%char = lowerChar c -> c = "x"%char \/ c = "X"%char.
Proof.
  destruct c as [[] [] [] [] [] [] [] []]; vm_compute; intro H;
    first [left; reflexivity | right; reflexivity | discriminate].
Qed.

(** X23. The filter of the listener lets through exactly the tokens whose
    text starts with 0x4444 or 0X4444: lower-casing only affects the x,
    and a token shorter than six characters never matches. *)
Theorem target_prefix_characterisation :
  forall t : string,
    startsWith (toLowerCase t) "0x4444" = true
    <-> exists rest : string,
          t = ("0x4444" ++ rest)%string \/ t = ("0X4444" ++ rest)%string.
Proof.
  intro t. unfold startsWith. split.
  - destruct t as [|c0 [|c1 [|c2 [|c3 [|c4 [|c5 rest]]]]]];
      cbn [toLowerCase]; intro H;
      repeat (apply prefix_cons in H;
              let E := fresh "E" in destruct H as [E H]);
      try discriminate.
    apply lowerChar_zero in E. apply lowerChar_x in E0.
    apply lowerChar_four in E1. apply lowerChar_four in E2.
    apply lowerChar_four in E3. apply lowerChar_four in E4.
    subst. exists rest. destruct E0 as [-> | ->]; [left | right]; reflexivity.
  - intros [rest [-> | ->]]; cbn [append toLowerCase];
      repeat (apply prefix_cons; split; [reflexivity|]);
      destruct (toLowerCase rest); reflexivity.
Qed.

Lemma target_prefix_characterisation_witness :
  startsWith (toLowerCase "0X4444aBcD00000000000000000000000000000001") "0x4444"
  = true.
Proof.
  apply (proj2 (target_prefix_characterisation
                  "0X4444aBcD00000000000000000000000000000001")).
  exists "aBcD00000000000000000000000000000001". right. reflexivity.
Defined.

Lemma onTokenCreate_throws_on_far_launch_witness :
  startsWith (toLowerCase (token Sample.farLaunch)) "0x4444" = true
  /\ 8640000000000 < launchTime Sample.farLaunch
  /\ onTokenCreate "0.0001" Sample.farLaunch = Throw "Invalid time value".
Proof.
  split; [reflexivity|]. split; [reflexivity|].
  exact (onTokenCreate_throws_on_far_launch "0.0001" Sample.farLaunch
           eq_refl eq_refl).
Defined.

Lemma orDefault_truthy (a : option string) (b : string) :
  truthy b = true -> truthy (Config.orDefault a b) = true.
Proof.
  intro Hb. unfold Config.orDefault. destruct a as [v|]; [|exact Hb].
  destruct (truthy v) eqn:Hv; [exact Hv | exact Hb].
Qed.

Lemma truthy_nonempty (s : string) : truthy s = true <-> s <> ""%string.
Proof.
  destruct s as [|c s]; simpl; split.
  - discriminate.
  - intro H. contradiction H. reflexivity.
  - intros _. discriminate.
  - reflexivity.
Qed.

(** X25. No dispatch is started without a private key, and none with an
    empty amount: start-up throws when PRIVATE_KEY is unset or empty,
    whatever follows; and every dispatch the listener starts carries a
    non-empty amount, which is BUY_AMOUNT_BNB when that is set and not
    empty, and 0.0001 otherwise. *)
Theorem configuration_guards_every_dispatch :
  forall (env : Config.ProcessEnv) (setup : result Z) (ev : TokenCreate),
    ((env "PRIVATE_KEY" = None \/ env "PRIVATE_KEY" = Some ""%string) ->
     Config.startThenReceive env setup ev
     = Throw "PRIVATE_KEY not set in .env file!")
    /\ (forall calls,
          Config.startThenReceive env setup ev = Ok calls ->
          (exists key, env "PRIVATE_KEY" = Some key /\ key <> ""%string)
          /\ Forall (fun c => snd c <> ""%string
                              /\ (forall a, env "BUY_AMOUNT_BNB" = Some a ->
                                            a <> ""%string -> snd c = a)
                              /\ ((env "BUY_AMOUNT_BNB" = None
                                   \/ env "BUY_AMOUNT_BNB" = Some ""%string) ->
                                  snd c = "0.0001"%string))
               calls).
Proof.
  intros env setup ev. unfold Config.startThenReceive, Config.PRIVATE_KEY. split.
  - intros [-> | ->]; reflexivity.
  - intro calls. destruct (env "PRIVATE_KEY") as [key|]; [|discriminate].
    destruct (truthy key) eqn:Hkey; [|discriminate]. cbn [bind].
    destruct setup as [initial|m]; cbn [bind]; [|discriminate].
    intro Hcalls. split.
    + exists key. split; [reflexivity|]. apply truthy_nonempty. exact Hkey.
    + unfold onTokenCreate in Hcalls.
      destruct (negb _); [injection Hcalls as <-; constructor|].
      destruct (toISOString _); cbn [bind] in Hcalls; [|discriminate].
      injection Hcalls as <-. constructor; [|constructor]. cbn [snd].
      unfold Config.BUY_AMOUNT_BNB. split; [|split].
      * apply truthy_nonempty. apply orDefault_truthy. reflexivity.
      * intros amount -> Ha. apply truthy_nonempty in Ha.
        unfold Config.orDefault. now rewrite Ha.
      * intros [-> | ->]; reflexivity.
Qed.

Lemma configuration_guards_every_dispatch_witness :
  Config.startThenReceive
    (fun k => if String.eqb k "BUY_AMOUNT_BNB" then Some ""%string else None)
    (Ok 7) Sample.launch
  = Throw "PRIVATE_KEY not set in .env file!".
Proof.
  apply (proj1 (configuration_guards_every_dispatch
                  (fun k => if String.eqb k "BUY_AMOUNT_BNB" then Some ""%string
                            else None)
                  (Ok 7) Sample.launch)).
  left. reflexivity.
Defined.

Example configured_start :
  Config.startThenReceive
    (fun k => if String.eqb k "PRIVATE_KEY" then Some "0xabc"%string
              else if String.eqb k "BUY_AMOUNT_BNB" then Some ""%string else None)
    (Ok 7) Sample.launch
  = Ok [(Sample.TOKEN, "0.0001"%string)].
Proof. reflexivity. Qed.
